(** * csm::FourParameterCorrelationModel

    A shallow embedding of [FourParameterCorrelationModel.cpp] and the
    properties its specification states about it.

    Conventions of the embedding.

    - [size_t] values are binary naturals ([N]).  The code never does
      arithmetic on them, it only compares them with a vector size, so no
      wrap-around of [size_t] itself can occur.
    - [int] is a 32-bit two's-complement integer, kept as a [Z] in
      [-2^31, 2^31).  The one conversion the code performs, from the
      [size_t] argument of [setCorrelationParameterGroup] to the [int]
      element of [theGroupMapping], is written out in [int_of_size_t].
    - [double] keeps the special values of IEEE 754 (infinities and NaN)
      and the rules that produce them; finite values are real numbers and
      the operations [dadd], [dsub], [dmul], [ddiv], [dexp] are exact:
      they neither round nor overflow nor underflow.  Statements that
      must not depend on this are made for a function whose arithmetic is
      a parameter ([getCorrelationCoefficient_in]).  The sign of zero is
      not tracked: a zero divisor acts as [+0.0], which is the only zero
      the stored [tau] can hold (the default is [+0.0] and a write rejects
      [tau <= 0]).
    - [std::vector] is a list; [operator[]] outside the bounds is undefined
      behaviour and shows up as the outcome [Undefined].
    - A member function is a computation in a state-and-exception monad
      over the object: a [throw] keeps the state reached so far. *)

From Stdlib Require Import Reals Lra ZArith NArith String.
From stdpp Require Import base decidable option list numbers.

Local Open Scope R_scope.

(** ** IEEE 754 special values over the reals *)

Inductive double : Type :=
| Num (r : R)
| PosInf
| NegInf
| NaN.

Definition inf_of_sign (positive : bool) : double :=
  if positive then PosInf else NegInf.

Definition dneg (x : double) : double :=
  match x with
  | Num r => Num (- r)
  | PosInf => NegInf
  | NegInf => PosInf
  | NaN => NaN
  end.

(** [fabs] *)
Definition dfabs (x : double) : double :=
  match x with
  | Num r => Num (Rabs r)
  | PosInf | NegInf => PosInf
  | NaN => NaN
  end.

Definition dadd (x y : double) : double :=
  match x, y with
  | NaN, _ | _, NaN => NaN
  | Num a, Num b => Num (a + b)
  | PosInf, NegInf | NegInf, PosInf => NaN
  | PosInf, _ | _, PosInf => PosInf
  | NegInf, _ | _, NegInf => NegInf
  end.

Definition dsub (x y : double) : double := dadd x (dneg y).

(** The sign of a product or quotient with an infinite operand; [None] when
    the finite operand is zero. *)
Definition sign_of (r : R) : option bool :=
  if Req_dec_T r 0 then None
  else if Rlt_dec 0 r then Some true else Some false.

Definition dmul_inf (positive : bool) (r : R) : double :=
  match sign_of r with
  | None => NaN
  | Some s => inf_of_sign (Bool.eqb positive s)
  end.

Definition dmul (x y : double) : double :=
  match x, y with
  | NaN, _ | _, NaN => NaN
  | Num a, Num b => Num (a * b)
  | Num a, PosInf | PosInf, Num a => dmul_inf true a
  | Num a, NegInf | NegInf, Num a => dmul_inf false a
  | PosInf, PosInf | NegInf, NegInf => PosInf
  | PosInf, NegInf | NegInf, PosInf => NegInf
  end.

Definition ddiv (x y : double) : double :=
  match x, y with
  | NaN, _ | _, NaN => NaN
  | Num a, Num b =>
      if Req_dec_T b 0 then
        match sign_of a with
        | None => NaN
        | Some s => inf_of_sign s
        end
      else Num (a / b)
  | Num _, (PosInf | NegInf) => Num 0
  | PosInf, Num b => inf_of_sign (if Rlt_dec b 0 then false else true)
  | NegInf, Num b => inf_of_sign (if Rlt_dec b 0 then true else false)
  | (PosInf | NegInf), (PosInf | NegInf) => NaN
  end.

(** [std::exp] *)
Definition dexp (x : double) : double :=
  match x with
  | Num r => Num (exp r)
  | PosInf => PosInf
  | NegInf => Num 0
  | NaN => NaN
  end.

(** Ordered comparisons: false as soon as one operand is NaN. *)
Definition dlt (x y : double) : Prop :=
  match x, y with
  | NaN, _ | _, NaN => False
  | Num a, Num b => a < b
  | NegInf, (Num _ | PosInf) | Num _, PosInf => True
  | _, _ => False
  end.

Definition dle (x y : double) : Prop :=
  match x, y with
  | NaN, _ | _, NaN => False
  | Num a, Num b => a <= b
  | NegInf, _ | _, PosInf => True
  | _, _ => False
  end.

Definition dgt (x y : double) : Prop := dlt y x.

#[export] Instance dlt_dec : RelDecision dlt.
Proof.
  intros [a| | |] [b| | |]; unfold Decision; simpl;
    first [ apply Rlt_dec | left; exact I | right; exact (fun f => f) ].
Defined.

#[export] Instance dle_dec : RelDecision dle.
Proof.
  intros [a| | |] [b| | |]; unfold Decision; simpl;
    first [ apply Rle_dec | left; exact I | right; exact (fun f => f) ].
Defined.

#[export] Instance dgt_dec : RelDecision dgt.
Proof. intros x y. unfold dgt. apply dlt_dec. Defined.

Declare Scope double_scope.
Delimit Scope double_scope with D.
Bind Scope double_scope with double.
Infix "+" := dadd : double_scope.
Infix "-" := dsub : double_scope.
Infix "*" := dmul : double_scope.
Infix "/" := ddiv : double_scope.
Infix "<" := dlt : double_scope.
Infix "<=" := dle : double_scope.
Infix ">" := dgt : double_scope.


(** ** The types the header declares *)

Module Error.

(** Modelled from the spec: [Error.h] is not part of the sources.  The two
    error kinds the specification names, OutOfRange and InvalidBounds, are
    the [ErrorType] values the code throws. *)
Inductive ErrorType : Set :=
| BOUNDS
| INDEX_OUT_OF_RANGE.

(** [Error(ErrorType, message, function)] *)
Record t : Set := make {
  getError : ErrorType;
  getMessage : string;
  getFunction : string
}.

End Error.

Module Parameters.

(** Modelled from the spec: the struct [Parameters] is declared in
    [FourParameterCorrelationModel.h], which is not part of the sources.
    It holds the four curve parameters; a default-constructed instance is
    all zeros. *)
Record t : Type := make {
  a : double;
  alpha : double;
  beta : double;
  tau : double
}.

Definition default : t := make (Num 0) (Num 0) (Num 0) (Num 0).

End Parameters.

(** ** Fixed-width integers *)

Definition INT_MAX : Z := 2 ^ 31 - 1.

(** The conversion of a [size_t] to [int]: the value modulo [2^32], read as
    two's complement. *)
Definition int_of_size_t (x : N) : Z :=
  let r := (Z.of_N x mod 2 ^ 32)%Z in
  if (r <=? INT_MAX)%Z then r else (r - 2 ^ 32)%Z.

(** ** Outcomes and [std::vector] *)

Inductive outcome (A : Type) : Type :=
| Returns (x : A)
| Throws (e : Error.t)
| Undefined.

Arguments Returns {A} x.
Arguments Throws {A} e.
Arguments Undefined {A}.

(** [v.size()] *)
Definition size {A : Type} (v : list A) : N := N.of_nat (length v).

(** [v[i]], read *)
Definition at_index {A : Type} (v : list A) (i : N) : outcome A :=
  match v !! N.to_nat i with
  | Some x => Returns x
  | None => Undefined
  end.

(** [v[i] = x] *)
Definition assign_index {A : Type} (v : list A) (i : N) (x : A)
  : outcome (list A) :=
  if (i <? size v)%N then Returns (<[N.to_nat i := x]> v) else Undefined.

(** ** The object and its member functions *)

Record FourParameterCorrelationModel : Type := Build_Model {
  theGroupMapping : list Z;
  theCorrParams : list Parameters.t;
  theFormat : string
}.

Definition set_theGroupMapping (v : list Z)
    (this : FourParameterCorrelationModel) : FourParameterCorrelationModel :=
  Build_Model v (theCorrParams this) (theFormat this).

Definition set_theCorrParams (v : list Parameters.t)
    (this : FourParameterCorrelationModel) : FourParameterCorrelationModel :=
  Build_Model (theGroupMapping this) v (theFormat this).

(** A member function returning [A]: the object before, the outcome and the
    object after. *)
Definition method (A : Type) : Type :=
  FourParameterCorrelationModel -> outcome A * FourParameterCorrelationModel.

#[export] Instance method_ret : MRet method :=
  fun A x this => (Returns x, this).

#[export] Instance method_bind : MBind method :=
  fun A B k c this =>
    match c this with
    | (Returns x, this') => k x this'
    | (Throws e, this') => (Throws e, this')
    | (Undefined, this') => (Undefined, this')
    end.

Definition throw {A : Type} (e : Error.t) : method A :=
  fun this => (Throws e, this).

Definition self : method FourParameterCorrelationModel :=
  fun this => (Returns this, this).

Definition store (this' : FourParameterCorrelationModel) : method unit :=
  fun _ => (Returns tt, this').

Definition lift {A : Type} (o : outcome A) : method A :=
  fun this => (o, this).

Notation "c1 ;; c2" := (mbind (fun _ => c2) c1)
  (at level 100, c2 at level 200, right associativity, only parsing).

(** The constructor
    [FourParameterCorrelationModel(size_t numSMParams, size_t numCPGroups)]:
    [theGroupMapping(numSMParams, -1)], [theCorrParams(numSMParams)]. *)
Definition construct (numSMParams numCPGroups : N)
  : FourParameterCorrelationModel :=
  {| theGroupMapping := replicate (N.to_nat numSMParams) (-1)%Z;
     theCorrParams := replicate (N.to_nat numSMParams) Parameters.default;
     theFormat := "Four-parameter model (A, alpha, beta, tau)" |}.

Definition getNumSensorModelParameters : method N :=
  this ← self; mret (size (theGroupMapping this)).

Definition getNumCorrelationParameterGroups : method N :=
  this ← self; mret (size (theCorrParams this)).

Definition checkSensorModelParameterIndex
    (smParamIndex : N) (functionName : string) : method unit :=
  this ← self;
  if (size (theGroupMapping this) <=? smParamIndex)%N then
    throw (Error.make Error.INDEX_OUT_OF_RANGE
             "Sensor model parameter index is out of range."
             (String.append "csm::FourParameterCorrelationModel::"
                            functionName))
  else mret tt.

Definition checkParameterGroupIndex
    (groupIndex : N) (functionName : string) : method unit :=
  this ← self;
  if (size (theCorrParams this) <=? groupIndex)%N then
    throw (Error.make Error.INDEX_OUT_OF_RANGE
             "Correlation parameter group index is out of range."
             (String.append "csm::FourParameterCorrelationModel::"
                            functionName))
  else mret tt.

Definition getCorrelationParameterGroup (smParamIndex : N) : method Z :=
  checkSensorModelParameterIndex smParamIndex "getCorrelationParameterGroup";;
  this ← self;
  lift (at_index (theGroupMapping this) smParamIndex).

Definition setCorrelationParameterGroup
    (smParamIndex cpGroupIndex : N) : method unit :=
  checkSensorModelParameterIndex smParamIndex "setCorrelationParameterGroup";;
  checkParameterGroupIndex cpGroupIndex "setCorrelationParameterGroup";;
  this ← self;
  v ← lift (assign_index (theGroupMapping this) smParamIndex
              (int_of_size_t cpGroupIndex));
  store (set_theGroupMapping v this).

Definition MODULE : string :=
  "csm::FourParameterCorrelationModel::setCorrelationGroupParameters".

Definition setCorrelationGroupParameters
    (cpGroupIndex : N) (params : Parameters.t) : method unit :=
  checkParameterGroupIndex cpGroupIndex "setCorrelationGroupParameters";;
  if decide (Parameters.a params < Num 0 \/ Parameters.a params > Num 1)%D then
    throw (Error.make Error.BOUNDS
             "Correlation parameter A must be in the range [-1, 1]." MODULE)
  else
  if decide (Parameters.alpha params < Num 0
             \/ Parameters.alpha params > Num 1)%D then
    throw (Error.make Error.BOUNDS
             "Correlation parameter alpha must be in the range [0, 1]." MODULE)
  else
  if decide (Parameters.beta params < Num 0
             \/ Parameters.beta params > Num 10)%D then
    throw (Error.make Error.BOUNDS
             "Correlation parameter beta must be non-negative." MODULE)
  else
  if decide (Parameters.tau params <= Num 0)%D then
    throw (Error.make Error.BOUNDS
             "Correlation parameter tau must be positive." MODULE)
  else
  this ← self;
  v ← lift (assign_index (theCorrParams this) cpGroupIndex params);
  store (set_theCorrParams v this).

(** The overload taking the four values. *)
Definition setCorrelationGroupParameters_values
    (cpGroupIndex : N) (a alpha beta tau : double) : method unit :=
  setCorrelationGroupParameters cpGroupIndex
    (Parameters.make a alpha beta tau).

Definition getCorrelationCoefficient
    (cpGroupIndex : N) (deltaTime : double) : method double :=
  checkParameterGroupIndex cpGroupIndex "getCorrelationCoefficient";;
  this ← self;
  cp ← lift (at_index (theCorrParams this) cpGroupIndex);
  let corrCoeff :=
    (Parameters.a cp *
     (Parameters.alpha cp +
      ((Num 1 - Parameters.alpha cp) * (Num 1 + Parameters.beta cp) /
       (Parameters.beta cp + dexp (dfabs deltaTime / Parameters.tau cp)))))%D
  in
  let corrCoeff :=
    if decide (corrCoeff < Num (-1))%D then Num (-1)
    else if decide (corrCoeff > Num 1)%D then Num 1
    else corrCoeff
  in
  mret corrCoeff.

Definition getCorrelationGroupParameters
    (cpGroupIndex : N) : method Parameters.t :=
  checkParameterGroupIndex cpGroupIndex "getCorrelationGroupParameters";;
  this ← self;
  lift (at_index (theCorrParams this) cpGroupIndex).

(** ** Exceptions and outcomes, as the callers see them *)

(** The two exceptions of the index checks. *)
Definition sm_index_error (functionName : string) : Error.t :=
  Error.make Error.INDEX_OUT_OF_RANGE
    "Sensor model parameter index is out of range."
    (String.append "csm::FourParameterCorrelationModel::" functionName).

Definition group_index_error (functionName : string) : Error.t :=
  Error.make Error.INDEX_OUT_OF_RANGE
    "Correlation parameter group index is out of range."
    (String.append "csm::FourParameterCorrelationModel::" functionName).

(** The exception of a bounds check, with its message. *)
Definition bounds_error (message : string) : Error.t :=
  Error.make Error.BOUNDS message MODULE.

(** "Fails with OutOfRange" and "fails with InvalidBounds". *)
Definition fails_with {A : Type} (kind : Error.ErrorType)
    (r : outcome A * FourParameterCorrelationModel) : Prop :=
  exists e, fst r = Throws e /\ Error.getError e = kind.

Definition returns {A : Type}
    (r : outcome A * FourParameterCorrelationModel) : Prop :=
  exists x, fst r = Returns x.

(** ** The curve, as the specification writes it *)

(** rho = a * (alpha + ((1 - alpha) * (1 + beta) / (beta + exp(|deltaTime| / tau)))),
    over the real numbers. *)
Definition rho (a alpha beta tau deltaTime : R) : R :=
  a * (alpha + ((1 - alpha) * (1 + beta) / (beta + exp (Rabs deltaTime / tau)))).

(** Clamping a real number into [-1, 1]. *)
Definition clamp (x : R) : R :=
  if Rlt_dec x (-1) then -1 else if Rlt_dec 1 x then 1 else x.

(** A [double] that is a number in [-1, 1]. *)
Definition in_unit_range (x : double) : Prop :=
  (Num (-1) <= x)%D /\ (x <= Num 1)%D.

(** The expression [getCorrelationCoefficient] computes from the stored
    parameters before it clamps, and the value it returns. *)
Definition corrCoeff_of (cp : Parameters.t) (deltaTime : double) : double :=
  (Parameters.a cp *
   (Parameters.alpha cp +
    ((Num 1 - Parameters.alpha cp) * (Num 1 + Parameters.beta cp) /
     (Parameters.beta cp + dexp (dfabs deltaTime / Parameters.tau cp)))))%D.

Definition clamped (corrCoeff : double) : double :=
  if decide (corrCoeff < Num (-1))%D then Num (-1)
  else if decide (corrCoeff > Num 1)%D then Num 1
  else corrCoeff.

(** ** The invariant of the group mapping *)

(** An entry is the "unassigned" value -1 or the index of a group. *)
Definition valid_entry (this : FourParameterCorrelationModel) (e : Z) : Prop :=
  e = (-1)%Z \/ (0 <= e < Z.of_N (size (theCorrParams this)))%Z.

Definition mapping_valid (this : FourParameterCorrelationModel) : Prop :=
  Forall (valid_entry this) (theGroupMapping this).

(** ** The example of the specification *)

Definition example_run : outcome double * FourParameterCorrelationModel :=
  (setCorrelationParameterGroup 0 0;;
   setCorrelationParameterGroup 1 0;;
   setCorrelationParameterGroup 2 1;;
   setCorrelationGroupParameters_values 0 (Num 0.8) (Num 0.3) (Num 1) (Num 5);;
   getCorrelationCoefficient 0 (Num 5))
    (construct 3 2).

(** ** The boundary values of the specification *)

(** The messages of the four bounds checks. *)
Definition message_A : string :=
  "Correlation parameter A must be in the range [-1, 1].".
Definition message_alpha : string :=
  "Correlation parameter alpha must be in the range [0, 1].".
Definition message_beta : string :=
  "Correlation parameter beta must be non-negative.".
Definition message_tau : string :=
  "Correlation parameter tau must be positive.".

(** a=0, a=1, alpha=0, alpha=1, beta=0, beta=10, the other fields inside
    their ranges. *)
Definition accepted_examples : list Parameters.t :=
  [ Parameters.make (Num 0) (Num 0.5) (Num 1) (Num 1);
    Parameters.make (Num 1) (Num 0.5) (Num 1) (Num 1);
    Parameters.make (Num 0.5) (Num 0) (Num 1) (Num 1);
    Parameters.make (Num 0.5) (Num 1) (Num 1) (Num 1);
    Parameters.make (Num 0.5) (Num 0.5) (Num 0) (Num 1);
    Parameters.make (Num 0.5) (Num 0.5) (Num 10) (Num 1) ].

(** a=-0.0001, a=1.0001, alpha=-0.0001, beta=10.0001, tau=0, tau=-1, the
    other fields inside their ranges, each with the message of its field. *)
Definition rejected_examples : list (Parameters.t * string) :=
  [ (Parameters.make (Num (-0.0001)) (Num 0.5) (Num 1) (Num 1), message_A);
    (Parameters.make (Num 1.0001) (Num 0.5) (Num 1) (Num 1), message_A);
    (Parameters.make (Num 0.5) (Num (-0.0001)) (Num 1) (Num 1), message_alpha);
    (Parameters.make (Num 0.5) (Num 0.5) (Num 10.0001) (Num 1), message_beta);
    (Parameters.make (Num 0.5) (Num 0.5) (Num 1) (Num 0), message_tau);
    (Parameters.make (Num 0.5) (Num 0.5) (Num 1) (Num (-1)), message_tau) ].

(** ** Sequences of calls *)

(** A call of a public member function with its arguments. *)
Inductive call : Type :=
| GetNumSensorModelParameters
| GetNumCorrelationParameterGroups
| GetCorrelationParameterGroup (smParamIndex : N)
| SetCorrelationParameterGroup (smParamIndex cpGroupIndex : N)
| SetCorrelationGroupParameters (cpGroupIndex : N) (params : Parameters.t)
| SetCorrelationGroupParametersValues
    (cpGroupIndex : N) (a alpha beta tau : double)
| GetCorrelationCoefficient (cpGroupIndex : N) (deltaTime : double)
| GetCorrelationGroupParameters (cpGroupIndex : N).

(** The object after a call, whether the call returned or threw. *)
Definition after (c : call) (this : FourParameterCorrelationModel)
  : FourParameterCorrelationModel :=
  match c with
  | GetNumSensorModelParameters => snd (getNumSensorModelParameters this)
  | GetNumCorrelationParameterGroups =>
      snd (getNumCorrelationParameterGroups this)
  | GetCorrelationParameterGroup i => snd (getCorrelationParameterGroup i this)
  | SetCorrelationParameterGroup i g =>
      snd (setCorrelationParameterGroup i g this)
  | SetCorrelationGroupParameters g params =>
      snd (setCorrelationGroupParameters g params this)
  | SetCorrelationGroupParametersValues g a alpha beta tau =>
      snd (setCorrelationGroupParameters_values g a alpha beta tau this)
  | GetCorrelationCoefficient g deltaTime =>
      snd (getCorrelationCoefficient g deltaTime this)
  | GetCorrelationGroupParameters g =>
      snd (getCorrelationGroupParameters g this)
  end.

Definition after_all (calls : list call)
    (this : FourParameterCorrelationModel) : FourParameterCorrelationModel :=
  fold_left (fun this c => after c this) calls this.

(** Every group index is a value of [int]. *)
Definition groups_fit_int (this : FourParameterCorrelationModel) : Prop :=
  (Z.of_N (size (theCorrParams this)) <= INT_MAX + 1)%Z.

(** ** Vocabulary of the further properties *)

(** The outcome is a return or an exception, not undefined behaviour. *)
Definition defined {A : Type}
    (r : outcome A * FourParameterCorrelationModel) : Prop :=
  fst r <> Undefined.

(** The bounds [setCorrelationGroupParameters] checks, on real values. *)
Definition within_bounds (a alpha beta tau : R) : Prop :=
  0 <= a <= 1 /\ 0 <= alpha <= 1 /\ 0 <= beta <= 10 /\ 0 < tau.

(** One of the four fields is NaN. *)
Definition has_NaN (cp : Parameters.t) : Prop :=
  Parameters.a cp = NaN \/ Parameters.alpha cp = NaN
  \/ Parameters.beta cp = NaN \/ Parameters.tau cp = NaN.

(** ** The arithmetic of the platform as a parameter *)

(** What [+], [-], [*], [/], [std::exp] and [fabs] compute on [double]
    depends on the platform: rounding, overflow to an infinity, underflow
    to zero.  [dadd], [dsub], [dmul], [ddiv] and [dexp] above are the exact
    ones, which none of these affects; an [arithmetic] is any other choice.
    The comparisons are the same for all of them. *)
Record arithmetic : Type := Build_arithmetic {
  fadd : double -> double -> double;
  fsub : double -> double -> double;
  fmul : double -> double -> double;
  fdiv : double -> double -> double;
  fexp : double -> double;
  ffabs : double -> double
}.

Definition exact_arithmetic : arithmetic :=
  Build_arithmetic dadd dsub dmul ddiv dexp dfabs.

(** [getCorrelationCoefficient], with the arithmetic left open. *)
Definition getCorrelationCoefficient_in (ar : arithmetic)
    (cpGroupIndex : N) (deltaTime : double) : method double :=
  checkParameterGroupIndex cpGroupIndex "getCorrelationCoefficient";;
  this ← self;
  cp ← lift (at_index (theCorrParams this) cpGroupIndex);
  let corrCoeff :=
    fmul ar (Parameters.a cp)
      (fadd ar (Parameters.alpha cp)
         (fdiv ar
            (fmul ar (fsub ar (Num 1) (Parameters.alpha cp))
                     (fadd ar (Num 1) (Parameters.beta cp)))
            (fadd ar (Parameters.beta cp)
               (fexp ar (fdiv ar (ffabs ar deltaTime) (Parameters.tau cp))))))
  in
  let corrCoeff :=
    if decide (corrCoeff < Num (-1))%D then Num (-1)
    else if decide (corrCoeff > Num 1)%D then Num 1
    else corrCoeff
  in
  mret corrCoeff.

(** The expression before the clamp, in a given arithmetic. *)
Definition corrCoeff_in (ar : arithmetic) (cp : Parameters.t)
    (deltaTime : double) : double :=
  fmul ar (Parameters.a cp)
    (fadd ar (Parameters.alpha cp)
       (fdiv ar
          (fmul ar (fsub ar (Num 1) (Parameters.alpha cp))
                   (fadd ar (Num 1) (Parameters.beta cp)))
          (fadd ar (Parameters.beta cp)
             (fexp ar (fdiv ar (ffabs ar deltaTime) (Parameters.tau cp)))))).

(** The specification's value at [deltaTime = 0],
    a * (alpha + (1 - alpha) * (1 + beta) / (beta + 1)), in a given
    arithmetic. *)
Definition at_zero_in (ar : arithmetic) (a alpha beta : double) : double :=
  fmul ar a
    (fadd ar alpha
       (fdiv ar (fmul ar (fsub ar (Num 1) alpha) (fadd ar (Num 1) beta))
                (fadd ar beta (Num 1)))).

(** An arithmetic that rounds the exact result of each operation with
    [round] and computes the exponential with [ex]; [fabs] is exact. *)
Definition rounded (round ex : double -> double) : arithmetic :=
  Build_arithmetic
    (fun x y => round (x + y)%D) (fun x y => round (x - y)%D)
    (fun x y => round (x * y)%D) (fun x y => round (x / y)%D)
    ex dfabs.

(** What the properties below need of the rounding and of the exponential:
    rounding keeps the order (it may overflow to an infinity or underflow
    to zero), integers up to 2^53 are representable, [exp(0)] is 1 and the
    exponential of a non-negative argument is at least 1. *)
Record faithful (round ex : double -> double) : Prop := Build_faithful {
  round_monotone : forall x y, (x <= y)%D -> (round x <= round y)%D;
  round_integer : forall z : Z,
    (Z.abs z <= 2 ^ 53)%Z -> round (Num (IZR z)) = Num (IZR z);
  exp_zero : ex (Num 0) = Num 1;
  exp_nonneg : forall x, (Num 0 <= x)%D -> (Num 1 <= ex x)%D
}.

(** A [double] that is a number between two bounds. *)
Definition number_in (lo hi : R) (x : double) : Prop :=
  (Num lo <= x)%D /\ (x <= Num hi)%D.

(** * Properties *)

(** ** Running a member function *)

Ltac unfold_method :=
  unfold getNumSensorModelParameters, getNumCorrelationParameterGroups,
    getCorrelationParameterGroup, setCorrelationParameterGroup,
    setCorrelationGroupParameters_values, setCorrelationGroupParameters,
    getCorrelationCoefficient, getCorrelationGroupParameters,
    checkSensorModelParameterIndex, checkParameterGroupIndex,
    mbind, method_bind, mret, method_ret, self, throw, store, lift.

(** Settles the comparisons of concrete real values that a run meets. *)
Ltac settle_decide :=
  repeat match goal with
  | |- context [decide ?P] =>
      first [ rewrite (decide_True (P := P)) by (unfold dgt; simpl; lra)
            | rewrite (decide_False (P := P)) by (unfold dgt; simpl; lra) ]
  end.

Lemma size_replicate {A : Type} (n : N) (x : A) :
  size (replicate (N.to_nat n) x) = n.
Proof. unfold size. rewrite length_replicate. apply N2Nat.id. Qed.

Lemma size_insert {A : Type} (v : list A) (i : nat) (x : A) :
  size (<[i := x]> v) = size v.
Proof. unfold size. now rewrite length_insert. Qed.

Lemma at_index_Some {A : Type} (v : list A) (i : N) (x : A) :
  v !! N.to_nat i = Some x -> at_index v i = Returns x.
Proof. unfold at_index. now intros ->. Qed.

Lemma at_index_lt {A : Type} (v : list A) (i : N) :
  (i < size v)%N -> exists x, at_index v i = Returns x.
Proof.
  unfold size, at_index. intros Hi.
  destruct (lookup_lt_is_Some_2 v (N.to_nat i)) as [x ->]; [lia | eauto].
Qed.

Lemma at_index_replicate {A : Type} (n i : N) (x : A) :
  (i < n)%N -> at_index (replicate (N.to_nat n) x) i = Returns x.
Proof.
  intros Hi. apply at_index_Some, lookup_replicate_2. lia.
Qed.

Lemma at_index_insert {A : Type} (v : list A) (i : N) (x : A) :
  (i < size v)%N -> at_index (<[N.to_nat i := x]> v) i = Returns x.
Proof.
  unfold size. intros Hi. apply at_index_Some, list_lookup_insert_eq. lia.
Qed.

Lemma at_index_insert_ne {A : Type} (v : list A) (i j : N) (x : A) :
  i <> j -> at_index (<[N.to_nat i := x]> v) j = at_index v j.
Proof.
  intros Hij. unfold at_index.
  rewrite list_lookup_insert_ne; [reflexivity | lia].
Qed.

Lemma checkSensorModelParameterIndex_run i fn this :
  checkSensorModelParameterIndex i fn this =
  if (size (theGroupMapping this) <=? i)%N
  then (Throws (sm_index_error fn), this) else (Returns tt, this).
Proof. unfold_method. now destruct (_ <=? _)%N. Qed.

Lemma checkParameterGroupIndex_run g fn this :
  checkParameterGroupIndex g fn this =
  if (size (theCorrParams this) <=? g)%N
  then (Throws (group_index_error fn), this) else (Returns tt, this).
Proof. unfold_method. now destruct (_ <=? _)%N. Qed.

Lemma getCorrelationParameterGroup_run i this :
  getCorrelationParameterGroup i this =
  if (size (theGroupMapping this) <=? i)%N
  then (Throws (sm_index_error "getCorrelationParameterGroup"), this)
  else (at_index (theGroupMapping this) i, this).
Proof. unfold_method. now destruct (_ <=? _)%N. Qed.

Lemma getCorrelationGroupParameters_run g this :
  getCorrelationGroupParameters g this =
  if (size (theCorrParams this) <=? g)%N
  then (Throws (group_index_error "getCorrelationGroupParameters"), this)
  else (at_index (theCorrParams this) g, this).
Proof. unfold_method. now destruct (_ <=? _)%N. Qed.

Lemma setCorrelationParameterGroup_run i g this :
  setCorrelationParameterGroup i g this =
  if (size (theGroupMapping this) <=? i)%N
  then (Throws (sm_index_error "setCorrelationParameterGroup"), this)
  else if (size (theCorrParams this) <=? g)%N
  then (Throws (group_index_error "setCorrelationParameterGroup"), this)
  else (Returns tt,
        set_theGroupMapping
          (<[N.to_nat i := int_of_size_t g]> (theGroupMapping this)) this).
Proof.
  unfold_method. destruct (_ <=? i)%N eqn:Hi; [reflexivity|].
  destruct (_ <=? g)%N; [reflexivity|].
  unfold assign_index. apply N.leb_gt in Hi.
  now rewrite (proj2 (N.ltb_lt _ _) Hi).
Qed.

Lemma getCorrelationCoefficient_run g deltaTime this :
  getCorrelationCoefficient g deltaTime this =
  if (size (theCorrParams this) <=? g)%N
  then (Throws (group_index_error "getCorrelationCoefficient"), this)
  else match at_index (theCorrParams this) g with
       | Returns cp => (Returns (clamped (corrCoeff_of cp deltaTime)), this)
       | Throws e => (Throws e, this)
       | Undefined => (Undefined, this)
       end.
Proof.
  unfold_method. destruct (_ <=? _)%N; [reflexivity|].
  now destruct (at_index _ _).
Qed.

Lemma setCorrelationGroupParameters_run g params this :
  setCorrelationGroupParameters g params this =
  if (size (theCorrParams this) <=? g)%N
  then (Throws (group_index_error "setCorrelationGroupParameters"), this)
  else if decide (Parameters.a params < Num 0 \/ Parameters.a params > Num 1)%D
  then (Throws (bounds_error
          "Correlation parameter A must be in the range [-1, 1]."), this)
  else if decide (Parameters.alpha params < Num 0
                  \/ Parameters.alpha params > Num 1)%D
  then (Throws (bounds_error
          "Correlation parameter alpha must be in the range [0, 1]."), this)
  else if decide (Parameters.beta params < Num 0
                  \/ Parameters.beta params > Num 10)%D
  then (Throws (bounds_error
          "Correlation parameter beta must be non-negative."), this)
  else if decide (Parameters.tau params <= Num 0)%D
  then (Throws (bounds_error
          "Correlation parameter tau must be positive."), this)
  else (Returns tt,
        set_theCorrParams (<[N.to_nat g := params]> (theCorrParams this)) this).
Proof.
  unfold_method. destruct (_ <=? g)%N eqn:Hg; [reflexivity|].
  repeat (destruct (decide _); [reflexivity|]).
  unfold assign_index. apply N.leb_gt in Hg.
  now rewrite (proj2 (N.ltb_lt _ _) Hg).
Qed.

(** ** Construction and the two counts *)

Lemma construct_counts (numSMParams numCPGroups : N) :
  let this := construct numSMParams numCPGroups in
  getNumSensorModelParameters this = (Returns numSMParams, this) /\
  getNumCorrelationParameterGroups this = (Returns numSMParams, this).
Proof.
  unfold_method. unfold construct. simpl.
  rewrite !size_replicate. split; reflexivity.
Qed.

(** C1: the constructor sizes [theCorrParams] with [numSMParams], not with
    [numCPGroups]: after [construct(3, 2)] the sequence of curve parameters
    holds three entries and the number of groups reported is 3, where the
    claim says 2. *)
Theorem construct_3_2_reports_3_groups :
  length (theGroupMapping (construct 3 2)) = 3%nat /\
  length (theCorrParams (construct 3 2)) = 3%nat /\
  fst (getNumSensorModelParameters (construct 3 2)) = Returns 3%N /\
  fst (getNumCorrelationParameterGroups (construct 3 2)) = Returns 3%N /\
  fst (getNumCorrelationParameterGroups (construct 3 2)) <> Returns 2%N.
Proof.
  repeat split; try reflexivity. discriminate.
Qed.

(** C8: on a freshly constructed object, [getCorrelationParameterGroup]
    returns -1 for every valid parameter index and leaves the object as it
    is; -1 is negative and lies outside the range of the valid group
    indices, [0, number of groups). *)
Theorem fresh_model_is_unassigned (numSMParams numCPGroups smParamIndex : N) :
  (smParamIndex < numSMParams)%N ->
  let this := construct numSMParams numCPGroups in
  getCorrelationParameterGroup smParamIndex this = (Returns (-1)%Z, this) /\
  (-1 < 0)%Z /\
  ~ (0 <= -1 < Z.of_N (size (theCorrParams this)))%Z.
Proof.
  intros Hi this. split; [|lia].
  rewrite getCorrelationParameterGroup_run. subst this. simpl.
  rewrite size_replicate, (proj2 (N.leb_gt _ _) Hi).
  now rewrite at_index_replicate.
Qed.

Lemma fresh_model_is_unassigned_witness :
  (1 < 3)%N /\
  getCorrelationParameterGroup 1 (construct 3 2)
  = (Returns (-1)%Z, construct 3 2).
Proof.
  split; [reflexivity|].
  apply (fresh_model_is_unassigned 3 2 1). reflexivity.
Defined.

(** ** Index checks *)

Lemma fails_with_Throws {A : Type} (e : Error.t) this :
  fails_with (A := A) (Error.getError e) (Throws e, this).
Proof. exists e. split; reflexivity. Qed.

Lemma returns_Returns {A : Type} (x : A) this : returns (Returns x, this).
Proof. now exists x. Qed.

Lemma returns_at_index {A : Type} (v : list A) (i : N) this :
  (i < size v)%N -> returns (at_index v i, this).
Proof. intros Hi. destruct (at_index_lt v i Hi) as [x ->]. now exists x. Qed.

(** C5: each of the five indexed operations throws INDEX_OUT_OF_RANGE when
    its index is at least the respective count, [setCorrelationParameterGroup]
    also when its group index is at least the number of groups; with the
    index equal to the count minus one the readers return, the group
    assignment returns, and [setCorrelationGroupParameters] does not throw
    INDEX_OUT_OF_RANGE (it returns, or it rejects the values with BOUNDS). *)
Theorem index_checks (this : FourParameterCorrelationModel)
    (smParamIndex cpGroupIndex : N) (params : Parameters.t)
    (deltaTime : double) :
  let numSMParams := size (theGroupMapping this) in
  let numCPGroups := size (theCorrParams this) in
  ((numSMParams <= smParamIndex)%N ->
     fails_with Error.INDEX_OUT_OF_RANGE
       (getCorrelationParameterGroup smParamIndex this)) /\
  ((numSMParams <= smParamIndex)%N \/ (numCPGroups <= cpGroupIndex)%N ->
     fails_with Error.INDEX_OUT_OF_RANGE
       (setCorrelationParameterGroup smParamIndex cpGroupIndex this)) /\
  ((numCPGroups <= cpGroupIndex)%N ->
     fails_with Error.INDEX_OUT_OF_RANGE
       (getCorrelationGroupParameters cpGroupIndex this) /\
     fails_with Error.INDEX_OUT_OF_RANGE
       (setCorrelationGroupParameters cpGroupIndex params this) /\
     fails_with Error.INDEX_OUT_OF_RANGE
       (getCorrelationCoefficient cpGroupIndex deltaTime this)) /\
  ((smParamIndex + 1 = numSMParams)%N ->
     returns (getCorrelationParameterGroup smParamIndex this)) /\
  ((smParamIndex + 1 = numSMParams)%N -> (cpGroupIndex + 1 = numCPGroups)%N ->
     returns (setCorrelationParameterGroup smParamIndex cpGroupIndex this)) /\
  ((cpGroupIndex + 1 = numCPGroups)%N ->
     returns (getCorrelationGroupParameters cpGroupIndex this) /\
     returns (getCorrelationCoefficient cpGroupIndex deltaTime this) /\
     ~ fails_with Error.INDEX_OUT_OF_RANGE
         (setCorrelationGroupParameters cpGroupIndex params this) /\
     (returns (setCorrelationGroupParameters cpGroupIndex params this) \/
      fails_with Error.BOUNDS
        (setCorrelationGroupParameters cpGroupIndex params this))).
Proof.
  intros n k.
  rewrite getCorrelationParameterGroup_run, setCorrelationParameterGroup_run,
    getCorrelationGroupParameters_run, setCorrelationGroupParameters_run,
    getCorrelationCoefficient_run.
  fold n k. repeat split.
  - intros Hi. rewrite (proj2 (N.leb_le _ _) Hi).
    apply (fails_with_Throws (sm_index_error _)).
  - intros [Hi|Hg].
    + rewrite (proj2 (N.leb_le _ _) Hi).
      apply (fails_with_Throws (sm_index_error _)).
    + rewrite (proj2 (N.leb_le _ _) Hg). destruct (n <=? smParamIndex)%N.
      * apply (fails_with_Throws (sm_index_error _)).
      * apply (fails_with_Throws (group_index_error _)).
  - rewrite (proj2 (N.leb_le _ _) H).
    apply (fails_with_Throws (group_index_error _)).
  - rewrite (proj2 (N.leb_le _ _) H).
    apply (fails_with_Throws (group_index_error _)).
  - rewrite (proj2 (N.leb_le _ _) H).
    apply (fails_with_Throws (group_index_error _)).
  - intros Hi. rewrite (proj2 (N.leb_gt n smParamIndex)) by lia.
    apply returns_at_index. fold n. lia.
  - intros Hi Hg. rewrite (proj2 (N.leb_gt n smParamIndex)) by lia.
    rewrite (proj2 (N.leb_gt k cpGroupIndex)) by lia.
    apply returns_Returns.
  - rewrite (proj2 (N.leb_gt k cpGroupIndex)) by lia.
    apply returns_at_index. fold k. lia.
  - rewrite (proj2 (N.leb_gt k cpGroupIndex)) by lia.
    destruct (at_index_lt (theCorrParams this) cpGroupIndex) as [cp ->];
      [fold k; lia|]. apply returns_Returns.
  - rewrite (proj2 (N.leb_gt k cpGroupIndex)) by lia.
    repeat (destruct (decide _);
            [intros (e & He & Hk); simpl in He; injection He as <-;
             discriminate Hk|]).
    intros (e & He & _). discriminate He.
  - rewrite (proj2 (N.leb_gt k cpGroupIndex)) by lia.
    repeat (destruct (decide _);
            [right; apply (fails_with_Throws (bounds_error _))|]).
    left. apply returns_Returns.
Qed.

Lemma index_checks_witness :
  let this := construct 2 2 in
  fails_with Error.INDEX_OUT_OF_RANGE (getCorrelationParameterGroup 2 this) /\
  fails_with Error.INDEX_OUT_OF_RANGE (setCorrelationParameterGroup 1 2 this) /\
  fails_with Error.INDEX_OUT_OF_RANGE
    (getCorrelationCoefficient 2 (Num 0) this) /\
  returns (getCorrelationParameterGroup 1 this) /\
  returns (setCorrelationParameterGroup 1 1 this) /\
  returns (getCorrelationCoefficient 1 (Num 0) this).
Proof.
  intros this.
  destruct (index_checks this 2 2 Parameters.default (Num 0))
    as (F1 & _ & F3 & _).
  destruct (index_checks this 1 2 Parameters.default (Num 0))
    as (_ & F2 & _).
  destruct (index_checks this 1 1 Parameters.default (Num 0))
    as (_ & _ & _ & S1 & S2 & S3).
  split; [apply F1; vm_compute; discriminate|].
  split; [apply F2; right; vm_compute; discriminate|].
  split; [apply F3; vm_compute; discriminate|].
  split; [apply S1; reflexivity|].
  split; [apply S2; reflexivity|].
  apply S3; reflexivity.
Defined.

(** ** Frame of the group assignment *)

(** C10: a [setCorrelationParameterGroup] that returns has written the
    entry of [theGroupMapping] at [smParamIndex] and nothing else: every
    other entry, the whole sequence of curve parameters, the format string
    and both counts are what they were. *)
Theorem setCorrelationParameterGroup_frame
    (this this' : FourParameterCorrelationModel)
    (smParamIndex cpGroupIndex : N) :
  setCorrelationParameterGroup smParamIndex cpGroupIndex this
  = (Returns tt, this') ->
  (forall j : N, j <> smParamIndex ->
     at_index (theGroupMapping this') j = at_index (theGroupMapping this) j) /\
  theCorrParams this' = theCorrParams this /\
  theFormat this' = theFormat this /\
  getNumSensorModelParameters this'
  = (fst (getNumSensorModelParameters this), this') /\
  getNumCorrelationParameterGroups this'
  = (fst (getNumCorrelationParameterGroups this), this') /\
  at_index (theGroupMapping this') smParamIndex
  = Returns (int_of_size_t cpGroupIndex).
Proof.
  rewrite setCorrelationParameterGroup_run.
  destruct (_ <=? smParamIndex)%N eqn:Hi; [discriminate|].
  destruct (_ <=? cpGroupIndex)%N; [discriminate|].
  intros [= <-]. apply N.leb_gt in Hi. simpl. repeat split.
  - intros j Hj. now apply at_index_insert_ne.
  - unfold_method. simpl. now rewrite size_insert.
  - now apply at_index_insert.
Qed.

Lemma setCorrelationParameterGroup_frame_witness :
  exists this',
    setCorrelationParameterGroup 2 1 (construct 3 2) = (Returns tt, this') /\
    theGroupMapping this' = [-1; -1; 1]%Z /\
    theCorrParams this' = theCorrParams (construct 3 2).
Proof.
  eexists. split; [reflexivity|]. split; [reflexivity|].
  eapply (setCorrelationParameterGroup_frame (construct 3 2) _ 2 1).
  reflexivity.
Defined.

(** ** Validation before mutation *)

(** C4: whatever the group index and the values (the overload taking four
    values only builds the tuple), a
    [setCorrelationGroupParameters] that throws (INDEX_OUT_OF_RANGE or
    BOUNDS) leaves the object exactly as it was, so that
    [getCorrelationGroupParameters] answers as before; one that returns has
    replaced the stored tuple of that group by the whole new tuple and
    touched nothing else; no other outcome exists. *)
Theorem setCorrelationGroupParameters_all_or_nothing
    (this : FourParameterCorrelationModel) (cpGroupIndex : N)
    (params : Parameters.t) :
  match setCorrelationGroupParameters cpGroupIndex params this with
  | (Throws e, this') =>
      this' = this /\
      (Error.getError e = Error.INDEX_OUT_OF_RANGE
       \/ Error.getError e = Error.BOUNDS) /\
      getCorrelationGroupParameters cpGroupIndex this'
      = getCorrelationGroupParameters cpGroupIndex this
  | (Returns _, this') =>
      this' = set_theCorrParams
                (<[N.to_nat cpGroupIndex := params]> (theCorrParams this)) this /\
      getCorrelationGroupParameters cpGroupIndex this'
      = (Returns params, this') /\
      (forall j : N, j <> cpGroupIndex ->
         at_index (theCorrParams this') j = at_index (theCorrParams this) j) /\
      theGroupMapping this' = theGroupMapping this
  | (Undefined, _) => False
  end.
Proof.
  rewrite setCorrelationGroupParameters_run.
  destruct (_ <=? cpGroupIndex)%N eqn:Hg; [simpl; auto|].
  repeat (destruct (decide _); [simpl; auto|]).
  apply N.leb_gt in Hg. repeat split.
  - rewrite getCorrelationGroupParameters_run. simpl.
    rewrite size_insert, (proj2 (N.leb_gt _ _) Hg).
    now rewrite at_index_insert.
  - intros j Hj. simpl. now apply at_index_insert_ne.
Qed.

Lemma setCorrelationGroupParameters_all_or_nothing_witness :
  snd (setCorrelationGroupParameters 5 Parameters.default (construct 1 1))
  = construct 1 1.
Proof.
  exact (proj1 (setCorrelationGroupParameters_all_or_nothing
                  (construct 1 1) 5 Parameters.default)).
Defined.

(** ** The bounds checks *)

(** C3: for a valid group index, [setCorrelationGroupParameters] throws
    BOUNDS exactly when a < 0 or a > 1, or alpha < 0 or alpha > 1, or
    beta < 0 or beta > 10, or tau <= 0; the checks run in the order a, alpha,
    beta, tau and the first violated one decides the message; otherwise the
    call returns.  The boundary values a=0, a=1, alpha=0, alpha=1, beta=0,
    beta=10 are accepted, and a=-0.0001, a=1.0001, alpha=-0.0001,
    beta=10.0001, tau=0, tau=-1 are rejected with the message of their
    field. *)
Theorem setCorrelationGroupParameters_bounds
    (this : FourParameterCorrelationModel) (cpGroupIndex : N)
    (a alpha beta tau : double) :
  (cpGroupIndex < size (theCorrParams this))%N ->
  let r := setCorrelationGroupParameters_values cpGroupIndex a alpha beta tau
             this in
  let bad_a := (a < Num 0 \/ a > Num 1)%D in
  let bad_alpha := (alpha < Num 0 \/ alpha > Num 1)%D in
  let bad_beta := (beta < Num 0 \/ beta > Num 10)%D in
  let bad_tau := (tau <= Num 0)%D in
  (fails_with Error.BOUNDS r <-> bad_a \/ bad_alpha \/ bad_beta \/ bad_tau) /\
  (bad_a -> r = (Throws (bounds_error message_A), this)) /\
  (~ bad_a -> bad_alpha -> r = (Throws (bounds_error message_alpha), this)) /\
  (~ bad_a -> ~ bad_alpha -> bad_beta ->
     r = (Throws (bounds_error message_beta), this)) /\
  (~ bad_a -> ~ bad_alpha -> ~ bad_beta -> bad_tau ->
     r = (Throws (bounds_error message_tau), this)) /\
  (~ bad_a -> ~ bad_alpha -> ~ bad_beta -> ~ bad_tau -> returns r) /\
  Forall (fun params =>
            returns (setCorrelationGroupParameters cpGroupIndex params this))
         accepted_examples /\
  Forall (fun '(params, message) =>
            setCorrelationGroupParameters cpGroupIndex params this
            = (Throws (bounds_error message), this))
         rejected_examples.
Proof.
  intros Hg r bad_a bad_alpha bad_beta bad_tau.
  assert (Hrun : forall params,
    setCorrelationGroupParameters cpGroupIndex params this =
    if decide (Parameters.a params < Num 0 \/ Parameters.a params > Num 1)%D
    then (Throws (bounds_error message_A), this)
    else if decide (Parameters.alpha params < Num 0
                    \/ Parameters.alpha params > Num 1)%D
    then (Throws (bounds_error message_alpha), this)
    else if decide (Parameters.beta params < Num 0
                    \/ Parameters.beta params > Num 10)%D
    then (Throws (bounds_error message_beta), this)
    else if decide (Parameters.tau params <= Num 0)%D
    then (Throws (bounds_error message_tau), this)
    else (Returns tt,
          set_theCorrParams
            (<[N.to_nat cpGroupIndex := params]> (theCorrParams this)) this)).
  { intros params. rewrite setCorrelationGroupParameters_run.
    now rewrite (proj2 (N.leb_gt _ _) Hg). }
  assert (Hr : r =
    if decide bad_a then (Throws (bounds_error message_A), this)
    else if decide bad_alpha then (Throws (bounds_error message_alpha), this)
    else if decide bad_beta then (Throws (bounds_error message_beta), this)
    else if decide bad_tau then (Throws (bounds_error message_tau), this)
    else (Returns tt,
          set_theCorrParams
            (<[N.to_nat cpGroupIndex := Parameters.make a alpha beta tau]>
               (theCorrParams this)) this)).
  { subst r. unfold setCorrelationGroupParameters_values.
    now rewrite Hrun. }
  clearbody r. subst r.
  split; [|split; [|split; [|split; [|split; [|split; [|split]]]]]].
  - split.
    + repeat (destruct (decide _); [tauto|]).
      intros (e & He & _). discriminate He.
    + intros Hbad.
      repeat (destruct (decide _);
              [apply (fails_with_Throws (bounds_error _))|]).
      tauto.
  - intros Ha. now rewrite decide_True.
  - intros Ha Hal. rewrite decide_False by assumption. now rewrite decide_True.
  - intros Ha Hal Hb. rewrite !decide_False by assumption.
    now rewrite decide_True.
  - intros Ha Hal Hb Ht. rewrite !decide_False by assumption.
    now rewrite decide_True.
  - intros Ha Hal Hb Ht. rewrite !decide_False by assumption.
    apply returns_Returns.
  - unfold accepted_examples.
    repeat (apply List.Forall_cons;
            [rewrite Hrun; simpl; settle_decide; apply returns_Returns|]).
    apply List.Forall_nil.
  - unfold rejected_examples.
    repeat (apply List.Forall_cons;
            [rewrite Hrun; simpl; settle_decide; reflexivity|]).
    apply List.Forall_nil.
Qed.

Lemma setCorrelationGroupParameters_bounds_witness :
  (0 < size (theCorrParams (construct 1 1)))%N /\
  setCorrelationGroupParameters_values 0 (Num 0.5) (Num 2) (Num 11) (Num 0)
    (construct 1 1)
  = (Throws (bounds_error message_alpha), construct 1 1).
Proof.
  split; [reflexivity|].
  destruct (setCorrelationGroupParameters_bounds (construct 1 1) 0
              (Num 0.5) (Num 2) (Num 11) (Num 0)) as (_ & _ & H & _);
    [reflexivity|].
  apply H.
  - unfold dgt; simpl; lra.
  - right. unfold dgt; simpl; lra.
Defined.

(** ** The coefficient *)

Lemma dfabs_dneg (x : double) : dfabs (dneg x) = dfabs x.
Proof. destruct x; simpl; try reflexivity. now rewrite Rabs_Ropp. Qed.

Lemma dfabs_idem (x : double) : dfabs (dfabs x) = dfabs x.
Proof. destruct x; simpl; try reflexivity. now rewrite Rabs_Rabsolu. Qed.

Lemma corrCoeff_of_dfabs (cp : Parameters.t) (x y : double) :
  dfabs x = dfabs y -> corrCoeff_of cp x = corrCoeff_of cp y.
Proof. unfold corrCoeff_of. now intros ->. Qed.

(** C6: the coefficient at [-t] is the coefficient at [t], for every group
    index and every real [t] (and for the infinities and NaN as well); the
    result depends on [deltaTime] through its absolute value only. *)
Theorem getCorrelationCoefficient_symmetric
    (this : FourParameterCorrelationModel) (cpGroupIndex : N) :
  (forall t : R,
     getCorrelationCoefficient cpGroupIndex (Num (- t)) this
     = getCorrelationCoefficient cpGroupIndex (Num t) this) /\
  (forall t : R,
     getCorrelationCoefficient cpGroupIndex (Num t) this
     = getCorrelationCoefficient cpGroupIndex (Num (Rabs t)) this) /\
  (forall deltaTime : double,
     getCorrelationCoefficient cpGroupIndex (dneg deltaTime) this
     = getCorrelationCoefficient cpGroupIndex deltaTime this).
Proof.
  assert (H : forall x y, dfabs x = dfabs y ->
    getCorrelationCoefficient cpGroupIndex x this
    = getCorrelationCoefficient cpGroupIndex y this).
  { intros x y Hxy. rewrite !getCorrelationCoefficient_run.
    destruct (_ <=? _)%N; [reflexivity|].
    destruct (at_index _ _); try reflexivity.
    now rewrite (corrCoeff_of_dfabs _ x y Hxy). }
  repeat split.
  - intros t. apply H, (dfabs_dneg (Num t)).
  - intros t. apply H. symmetry. apply (dfabs_idem (Num t)).
  - intros d. apply H, dfabs_dneg.
Qed.

Lemma sign_of_0 : sign_of 0 = None.
Proof. unfold sign_of. now destruct (Req_dec_T 0 0). Qed.

Lemma ddiv_Num (x y : R) : y <> 0 -> (Num x / Num y)%D = Num (x / y).
Proof. intros Hy. simpl. now destruct (Req_dec_T y 0). Qed.

Lemma clamp_range (x : R) : -1 <= clamp x <= 1.
Proof. unfold clamp. destruct (Rlt_dec x (-1)), (Rlt_dec 1 x); lra. Qed.

Lemma clamp_id (x : R) : -1 <= x <= 1 -> clamp x = x.
Proof. unfold clamp. destruct (Rlt_dec x (-1)), (Rlt_dec 1 x); lra. Qed.

Lemma clamped_Num (x : R) : clamped (Num x) = Num (clamp x).
Proof.
  unfold clamped, clamp.
  destruct (decide (Num x < Num (-1))%D) as [H|H]; simpl in H;
    destruct (Rlt_dec x (-1)); try lra; try reflexivity.
  destruct (decide (Num x > Num 1)%D) as [H'|H']; unfold dgt in H';
    simpl in H'; destruct (Rlt_dec 1 x); try lra; reflexivity.
Qed.

Lemma clamped_range (x : double) :
  clamped x <> NaN -> in_unit_range (clamped x).
Proof.
  destruct x as [r| | |].
  - intros _. rewrite clamped_Num. unfold in_unit_range. simpl.
    apply clamp_range.
  - intros _. unfold clamped, in_unit_range.
    rewrite decide_False by (simpl; tauto).
    rewrite decide_True by exact I. simpl. lra.
  - intros _. unfold clamped, in_unit_range.
    rewrite decide_True by exact I. simpl. lra.
  - intros H. exfalso. apply H. unfold clamped.
    rewrite !decide_False; [reflexivity | exact (fun f => f) ..].
Qed.

(** On real parameters with [tau <> 0] and a divisor that is not zero, the
    arithmetic of the code is the arithmetic of the formula. *)
Lemma corrCoeff_of_Num (a alpha beta tau t : R) :
  tau <> 0 -> beta + exp (Rabs t / tau) <> 0 ->
  corrCoeff_of (Parameters.make (Num a) (Num alpha) (Num beta) (Num tau))
    (Num t)
  = Num (rho a alpha beta tau t).
Proof.
  intros Htau Hden. unfold corrCoeff_of, rho. cbn [Parameters.a
    Parameters.alpha Parameters.beta Parameters.tau dfabs].
  rewrite (ddiv_Num _ tau Htau). cbn [dexp dadd dsub dneg dmul].
  rewrite ddiv_Num by assumption. cbn [dadd dmul].
  f_equal.
Qed.

(** C2 does not hold as stated: the parameters of a group that was never
    set are all zero, and the coefficient at [deltaTime = 0] is then
    [0/0 = NaN] carried through to the result, which neither comparison of
    the clamp catches; the value returned is not in [-1, 1]. *)
Lemma unset_group_coefficient_at_zero_is_NaN :
  fst (getCorrelationCoefficient 0 (Num 0) (construct 1 1)) = Returns NaN /\
  ~ (exists v, fst (getCorrelationCoefficient 0 (Num 0) (construct 1 1))
               = Returns v /\ in_unit_range v).
Proof.
  assert (H : fst (getCorrelationCoefficient 0 (Num 0) (construct 1 1))
              = Returns NaN).
  { rewrite getCorrelationCoefficient_run. simpl.
    unfold corrCoeff_of, Parameters.default. simpl.
    destruct (Req_dec_T 0 0) as [_|Hne]; [|now destruct Hne].
    rewrite Rabs_R0, sign_of_0. simpl.
    unfold clamped. rewrite !decide_False; [reflexivity | exact (fun f => f) ..]. }
  split; [exact H|].
  rewrite H. intros (v & [= <-] & Hv & _). exact Hv.
Qed.

Lemma getCorrelationCoefficient_in_run (ar : arithmetic) g deltaTime this :
  getCorrelationCoefficient_in ar g deltaTime this =
  if (size (theCorrParams this) <=? g)%N
  then (Throws (group_index_error "getCorrelationCoefficient"), this)
  else match at_index (theCorrParams this) g with
       | Returns cp => (Returns (clamped (corrCoeff_in ar cp deltaTime)), this)
       | Throws e => (Throws e, this)
       | Undefined => (Undefined, this)
       end.
Proof.
  unfold getCorrelationCoefficient_in, checkParameterGroupIndex,
    mbind, method_bind, mret, method_ret, self, throw, lift.
  destruct (_ <=? _)%N; [reflexivity|]. now destruct (at_index _ _).
Qed.

Lemma clamped_NaN_iff (x : double) : clamped x = NaN <-> x = NaN.
Proof.
  split.
  - intros H. destruct x as [r| | |]; [| | |reflexivity]; exfalso;
      revert H; unfold clamped;
      repeat (destruct (decide _); [discriminate|]); discriminate.
  - intros ->. unfold clamped.
    rewrite !decide_False; [reflexivity | exact (fun f => f) ..].
Qed.

(** C2, amended: for a valid group index the call returns, without changing
    the object, the value of the expression
    a * (alpha + ((1 - alpha) * (1 + beta) / (beta + exp(|deltaTime| / tau))))
    as the arithmetic of the platform evaluates it on the stored parameters,
    passed through the two comparisons of the clamp; the value returned
    lies in [-1, 1] whenever it is not NaN, and it is NaN exactly when the
    expression evaluates to NaN.  This holds whatever the arithmetic is
    (rounding, overflow, underflow), the exact one included. *)
Theorem getCorrelationCoefficient_clamped
    (ar : arithmetic) (this : FourParameterCorrelationModel)
    (cpGroupIndex : N) (cp : Parameters.t) (deltaTime : double) :
  (cpGroupIndex < size (theCorrParams this))%N ->
  at_index (theCorrParams this) cpGroupIndex = Returns cp ->
  getCorrelationCoefficient_in exact_arithmetic = getCorrelationCoefficient /\
  exists v : double,
    getCorrelationCoefficient_in ar cpGroupIndex deltaTime this
    = (Returns v, this) /\
    v = clamped (corrCoeff_in ar cp deltaTime) /\
    (v <> NaN -> in_unit_range v) /\
    (v = NaN <-> corrCoeff_in ar cp deltaTime = NaN).
Proof.
  intros Hg Hcp. split; [reflexivity|].
  exists (clamped (corrCoeff_in ar cp deltaTime)).
  split; [|split; [reflexivity|split]].
  - rewrite getCorrelationCoefficient_in_run, (proj2 (N.leb_gt _ _) Hg).
    now rewrite Hcp.
  - apply clamped_range.
  - apply clamped_NaN_iff.
Qed.

Lemma getCorrelationCoefficient_clamped_witness :
  let this :=
    Build_Model [0%Z] [Parameters.make (Num 0.8) (Num 0.3) (Num 1) (Num 5)]
      "Four-parameter model (A, alpha, beta, tau)" in
  exists v : double,
    getCorrelationCoefficient 0 (Num 5) this = (Returns v, this) /\
    (v <> NaN -> in_unit_range v).
Proof.
  intros this.
  destruct (getCorrelationCoefficient_clamped exact_arithmetic this 0
              (Parameters.make (Num 0.8) (Num 0.3) (Num 1) (Num 5)) (Num 5))
    as (_ & v & Hv & _ & Hr & _); [reflexivity | reflexivity |].
  exists v. split; [exact Hv | exact Hr].
Defined.

(** ** The example *)

Lemma exp_twice_bounds (x l u l' u' : R) :
  0 < l -> l <= exp x <= u -> l' <= l * l -> u * u <= u' ->
  l' <= exp (2 * x) <= u'.
Proof.
  intros Hl [Hlo Hhi] Hl' Hu'.
  replace (2 * x) with (x + x) by lra. rewrite exp_plus. nra.
Qed.

(** Bounds of e, from [1 + x <= exp x] at [x = 1/1024] and [x = -1/1024]
    and ten squarings. *)
Lemma exp_1_bounds : 2.7169 <= exp 1 <= 2.7197.
Proof.
  assert (H0 : 1.0009765625 <= exp (1 / 1024) <= 1.0009775172).
  { pose proof (exp_ineq1_le (1 / 1024)) as Hlo.
    pose proof (exp_ineq1_le (- (1 / 1024))) as Hhi.
    pose proof (exp_pos (1 / 1024)) as Hpos.
    rewrite exp_Ropp in Hhi.
    assert (Hinv : exp (1 / 1024) * / exp (1 / 1024) = 1)
      by (apply Rinv_r; lra).
    split; [lra|]. nra. }
  assert (H1 : 1.0019540786 <= exp (1 / 512) <= 1.0019559900).
  { replace (1 / 512) with (2 * (1 / 1024)) by lra.
    eapply exp_twice_bounds; [ | exact H0 | | ]; lra. }
  assert (H2 : 1.0039119756 <= exp (1 / 256) <= 1.0039158059).
  { replace (1 / 256) with (2 * (1 / 512)) by lra.
    eapply exp_twice_bounds; [ | exact H1 | | ]; lra. }
  assert (H3 : 1.0078392547 <= exp (1 / 128) <= 1.0078469454).
  { replace (1 / 128) with (2 * (1 / 256)) by lra.
    eapply exp_twice_bounds; [ | exact H2 | | ]; lra. }
  assert (H4 : 1.0157399633 <= exp (1 / 64) <= 1.0157554654).
  { replace (1 / 64) with (2 * (1 / 128)) by lra.
    eapply exp_twice_bounds; [ | exact H3 | | ]; lra. }
  assert (H5 : 1.0317276730 <= exp (1 / 32) <= 1.0317591655).
  { replace (1 / 32) with (2 * (1 / 64)) by lra.
    eapply exp_twice_bounds; [ | exact H4 | | ]; lra. }
  assert (H6 : 1.0644619912 <= exp (1 / 16) <= 1.0645269756).
  { replace (1 / 16) with (2 * (1 / 32)) by lra.
    eapply exp_twice_bounds; [ | exact H5 | | ]; lra. }
  assert (H7 : 1.1330793307 <= exp (1 / 8) <= 1.1332176818).
  { replace (1 / 8) with (2 * (1 / 16)) by lra.
    eapply exp_twice_bounds; [ | exact H6 | | ]; lra. }
  assert (H8 : 1.2838687696 <= exp (1 / 4) <= 1.2841823144).
  { replace (1 / 4) with (2 * (1 / 8)) by lra.
    eapply exp_twice_bounds; [ | exact H7 | | ]; lra. }
  assert (H9 : 1.6483190175 <= exp (1 / 2) <= 1.6491242167).
  { replace (1 / 2) with (2 * (1 / 4)) by lra.
    eapply exp_twice_bounds; [ | exact H8 | | ]; lra. }
  assert (H10 : 2.7169555834 <= exp 1 <= 2.7196106822).
  { replace (exp 1) with (exp (2 * (1 / 2))) by (f_equal; lra).
    eapply exp_twice_bounds; [ | exact H9 | | ]; lra. }
  lra.
Qed.

Lemma rho_example :
  rho 0.8 0.3 1 5 5 = 0.8 * (0.3 + 1.4 / (1 + exp 1)) /\
  0.541 < rho 0.8 0.3 1 5 5 < 0.5415.
Proof.
  pose proof exp_1_bounds as He.
  assert (Heq : rho 0.8 0.3 1 5 5 = 0.8 * (0.3 + 1.4 / (1 + exp 1))).
  { unfold rho. rewrite Rabs_pos_eq by lra.
    replace (5 / 5) with 1 by lra. lra. }
  split; [exact Heq|]. rewrite Heq.
  assert (Hq : 1.4 / (1 + exp 1) * (1 + exp 1) = 1.4) by (field; lra).
  set (q := 1.4 / (1 + exp 1)) in *. nra.
Qed.

Lemma bind_Returns {A B : Type} (c : method A) (k : A -> method B)
    (this this' : FourParameterCorrelationModel) (x : A) :
  c this = (Returns x, this') -> (c ≫= k) this = k x this'.
Proof. unfold mbind, method_bind. now intros ->. Qed.

(** The four writes of the example succeed and the read returns the value
    of the formula. *)
Lemma example_run_value :
  fst example_run = Returns (Num (rho 0.8 0.3 1 5 5)).
Proof.
  unfold example_run.
  do 3 (erewrite bind_Returns;
        [|rewrite setCorrelationParameterGroup_run; reflexivity]).
  erewrite bind_Returns.
  2:{ unfold setCorrelationGroupParameters_values.
      rewrite setCorrelationGroupParameters_run.
      rewrite (proj2 (N.leb_gt _ _)) by reflexivity.
      settle_decide. reflexivity. }
  rewrite getCorrelationCoefficient_run.
  rewrite (proj2 (N.leb_gt _ _)) by reflexivity.
  cbn [theCorrParams set_theCorrParams set_theGroupMapping].
  rewrite at_index_insert by reflexivity.
  rewrite corrCoeff_of_Num, clamped_Num.
  - rewrite clamp_id; [reflexivity|]. pose proof rho_example. lra.
  - lra.
  - pose proof (exp_pos (Rabs 5 / 5)). lra.
Qed.

(** C7 does not hold as stated: the value the example returns is farther
    than 0.1 from 0.729. *)
Lemma example_value_is_not_0_729 :
  ~ (exists r : R,
       fst example_run = Returns (Num r) /\ Rabs (r - 0.729) <= 0.1).
Proof.
  rewrite example_run_value. intros (r & [= <-] & Hr).
  pose proof rho_example as (_ & Hlo & Hhi).
  rewrite Rabs_left in Hr; lra.
Qed.

(** C7, amended: the example returns the closed-form value of the curve at
    [deltaTime = 5] with a=0.8, alpha=0.3, beta=1, tau=5, which is
    0.8 * (0.3 + 1.4 / (1 + e)), between 0.541 and 0.5415; the clamp is not
    engaged. *)
Theorem example_value :
  fst example_run = Returns (Num (rho 0.8 0.3 1 5 5)) /\
  rho 0.8 0.3 1 5 5 = 0.8 * (0.3 + 1.4 / (1 + exp 1)) /\
  0.541 < rho 0.8 0.3 1 5 5 < 0.5415 /\
  clamp (rho 0.8 0.3 1 5 5) = rho 0.8 0.3 1 5 5.
Proof.
  pose proof rho_example as (Heq & Hlo & Hhi).
  split; [exact example_run_value|]. split; [exact Heq|].
  split; [split; assumption|]. apply clamp_id. lra.
Qed.

(** ** The invariant of the group mapping *)

Lemma int_of_size_t_small (x : N) :
  (Z.of_N x <= INT_MAX)%Z -> int_of_size_t x = Z.of_N x.
Proof.
  unfold int_of_size_t, INT_MAX. intros Hx.
  rewrite Z.mod_small by lia.
  now rewrite (proj2 (Z.leb_le _ _)) by (unfold INT_MAX; lia).
Qed.

Lemma valid_entry_params (this this' : FourParameterCorrelationModel) (e : Z) :
  size (theCorrParams this') = size (theCorrParams this) ->
  valid_entry this e -> valid_entry this' e.
Proof. unfold valid_entry. now intros ->. Qed.

(** What a call can change: [setCorrelationParameterGroup] one entry of
    the mapping, [setCorrelationGroupParameters] one entry of the curve
    parameters, every other call nothing. *)
Lemma after_cases (c : call) (this : FourParameterCorrelationModel) :
  after c this = this
  \/ (exists i g,
        c = SetCorrelationParameterGroup i g /\
        (g < size (theCorrParams this))%N /\
        after c this =
        set_theGroupMapping
          (<[N.to_nat i := int_of_size_t g]> (theGroupMapping this)) this)
  \/ (exists g params,
        after c this =
        set_theCorrParams
          (<[N.to_nat g := params]> (theCorrParams this)) this).
Proof.
  destruct c as [| |i|i g|g params|g a alpha beta tau|g deltaTime|g];
    unfold after.
  - now left.
  - now left.
  - left. rewrite getCorrelationParameterGroup_run. now destruct (_ <=? _)%N.
  - rewrite setCorrelationParameterGroup_run.
    destruct (_ <=? i)%N; [now left|].
    destruct (_ <=? g)%N eqn:Hg; [now left|].
    right. left. exists i, g. apply N.leb_gt in Hg. auto.
  - rewrite setCorrelationGroupParameters_run.
    destruct (_ <=? g)%N; [now left|].
    repeat (destruct (decide _); [now left|]).
    right. right. eauto.
  - unfold setCorrelationGroupParameters_values.
    rewrite setCorrelationGroupParameters_run.
    destruct (_ <=? g)%N; [now left|].
    repeat (destruct (decide _); [now left|]).
    right. right. eauto.
  - left. rewrite getCorrelationCoefficient_run.
    destruct (_ <=? _)%N; [reflexivity|]. now destruct (at_index _ _).
  - left. rewrite getCorrelationGroupParameters_run. now destruct (_ <=? _)%N.
Qed.

Lemma after_preserves (c : call) (this : FourParameterCorrelationModel) :
  groups_fit_int this -> mapping_valid this ->
  groups_fit_int (after c this) /\ mapping_valid (after c this) /\
  size (theGroupMapping (after c this)) = size (theGroupMapping this) /\
  size (theCorrParams (after c this)) = size (theCorrParams this).
Proof.
  intros Hfit Hvalid.
  destruct (after_cases c this)
    as [-> | [(i & g & _ & Hg & ->) | (g & params & ->)]].
  - auto.
  - unfold groups_fit_int, mapping_valid. simpl.
    rewrite size_insert. repeat split; try assumption.
    apply Forall_insert.
    + revert Hvalid. apply Forall_impl. intros e. now apply valid_entry_params.
    + right. simpl. unfold groups_fit_int in Hfit.
      rewrite int_of_size_t_small; lia.
  - unfold groups_fit_int, mapping_valid. simpl.
    rewrite size_insert. repeat split; try assumption.
    revert Hvalid. apply Forall_impl. intros e.
    apply valid_entry_params. simpl. now rewrite size_insert.
Qed.

Lemma construct_mapping_valid (numSMParams numCPGroups : N) :
  mapping_valid (construct numSMParams numCPGroups).
Proof. apply Forall_replicate. now left. Qed.

Lemma after_all_preserves (calls : list call)
    (this : FourParameterCorrelationModel) :
  groups_fit_int this -> mapping_valid this ->
  groups_fit_int (after_all calls this) /\ mapping_valid (after_all calls this).
Proof.
  revert this. induction calls as [|c calls IH]; intros this Hfit Hvalid.
  - split; assumption.
  - simpl. destruct (after_preserves c this Hfit Hvalid) as (Hfit' & Hvalid' & _).
    now apply IH.
Qed.

(** C9 does not hold as stated: with more than 2^31 groups a valid group
    index need not be a value of [int].  On an object of 2^31 + 1 parameters
    (and as many groups), [setCorrelationParameterGroup(0, 2^31)] passes
    both checks and stores -2^31, which is neither -1 nor a group index. *)
Lemma mapping_invalid_beyond_INT_MAX :
  mapping_valid (construct 2147483649 1) /\
  fst (setCorrelationParameterGroup 0 2147483648 (construct 2147483649 1))
  = Returns tt /\
  fst (getCorrelationParameterGroup 0
         (snd (setCorrelationParameterGroup 0 2147483648
                 (construct 2147483649 1))))
  = Returns (-2147483648)%Z /\
  ~ mapping_valid
      (snd (setCorrelationParameterGroup 0 2147483648
              (construct 2147483649 1))).
Proof.
  assert (Hrun :
    setCorrelationParameterGroup 0 2147483648 (construct 2147483649 1) =
    (Returns tt,
     set_theGroupMapping
       (<[N.to_nat 0 := (-2147483648)%Z]>
          (theGroupMapping (construct 2147483649 1)))
       (construct 2147483649 1))).
  { rewrite setCorrelationParameterGroup_run. unfold construct.
    cbn [theGroupMapping theCorrParams]. rewrite !size_replicate.
    reflexivity. }
  assert (Hsize : (0 < size (theGroupMapping (construct 2147483649 1)))%N).
  { unfold construct. cbn [theGroupMapping]. rewrite size_replicate.
    reflexivity. }
  assert (Hget :
    at_index
      (<[N.to_nat 0 := (-2147483648)%Z]>
         (theGroupMapping (construct 2147483649 1))) 0
    = Returns (-2147483648)%Z) by now apply at_index_insert.
  split; [apply construct_mapping_valid|].
  rewrite Hrun. cbn [fst snd]. split; [reflexivity|]. split.
  - rewrite getCorrelationParameterGroup_run.
    unfold set_theGroupMapping at 1 2. cbn [theGroupMapping].
    rewrite size_insert, (proj2 (N.leb_gt _ _) Hsize). cbn [fst].
    exact Hget.
  - unfold mapping_valid, set_theGroupMapping. cbn [theGroupMapping].
    intros Hvalid. unfold at_index in Hget.
    destruct (_ !! _) as [e|] eqn:He; [|discriminate].
    injection Hget as ->.
    apply (proj1 (Forall_lookup _ _) Hvalid _ _) in He.
    destruct He as [He|He]; [discriminate He|]. lia.
Qed.

(** C9, amended: provided the number of groups is at most 2^31, so that
    every group index is a value of [int], each entry of the group mapping
    is -1 or a group index below the number of groups.  This holds at
    construction (all entries -1, for any counts), is kept by every call of
    a public member function, hence holds after any sequence of calls on a
    constructed object; [setCorrelationParameterGroup] stores its group
    index after checking it against the number of groups, and no other call
    changes the mapping. *)
Theorem mapping_valid_invariant :
  (forall numSMParams numCPGroups : N,
     mapping_valid (construct numSMParams numCPGroups)) /\
  (forall (c : call) (this : FourParameterCorrelationModel),
     groups_fit_int this -> mapping_valid this ->
     mapping_valid (after c this) /\ groups_fit_int (after c this)) /\
  (forall (numSMParams numCPGroups : N) (calls : list call),
     groups_fit_int (construct numSMParams numCPGroups) ->
     mapping_valid (after_all calls (construct numSMParams numCPGroups))) /\
  (forall (c : call) (this : FourParameterCorrelationModel),
     (forall i g, c <> SetCorrelationParameterGroup i g) ->
     theGroupMapping (after c this) = theGroupMapping this).
Proof.
  split; [exact construct_mapping_valid|]. split; [|split].
  - intros c this Hfit Hvalid.
    destruct (after_preserves c this Hfit Hvalid) as (? & ? & _). now split.
  - intros n k calls Hfit.
    apply after_all_preserves; [assumption | apply construct_mapping_valid].
  - intros c this Hc.
    destruct (after_cases c this)
      as [-> | [(i & g & -> & _) | (g & params & ->)]];
      [reflexivity | now destruct (Hc i g) | reflexivity].
Qed.

Lemma mapping_valid_invariant_witness :
  groups_fit_int (construct 3 2) /\
  mapping_valid
    (after_all [SetCorrelationParameterGroup 0 0;
                SetCorrelationParameterGroup 2 1;
                SetCorrelationParameterGroup 1 7;
                GetCorrelationParameterGroup 2]
       (construct 3 2)) /\
  theGroupMapping (after (GetCorrelationParameterGroup 2) (construct 3 2))
  = theGroupMapping (construct 3 2).
Proof.
  assert (Hfit : groups_fit_int (construct 3 2)) by (vm_compute; discriminate).
  destruct mapping_valid_invariant as (_ & _ & Hall & Hframe).
  split; [exact Hfit|]. split.
  - apply Hall. exact Hfit.
  - apply Hframe. discriminate.
Defined.

(** * Further properties of the member functions *)

(** ** Group assignment: round trip, failure, order of the checks *)

(** X1: a group index that is a value of [int] is read back as written:
    after [setCorrelationParameterGroup(i, g)] with both indices valid,
    [getCorrelationParameterGroup(i)] returns [g]. *)
Theorem set_then_get_group (this : FourParameterCorrelationModel)
    (smParamIndex cpGroupIndex : N) :
  (smParamIndex < size (theGroupMapping this))%N ->
  (cpGroupIndex < size (theCorrParams this))%N ->
  (Z.of_N cpGroupIndex <= INT_MAX)%Z ->
  exists this',
    setCorrelationParameterGroup smParamIndex cpGroupIndex this
    = (Returns tt, this') /\
    getCorrelationParameterGroup smParamIndex this'
    = (Returns (Z.of_N cpGroupIndex), this').
Proof.
  intros Hi Hg Hint. eexists. split.
  - rewrite setCorrelationParameterGroup_run.
    now rewrite (proj2 (N.leb_gt _ _) Hi), (proj2 (N.leb_gt _ _) Hg).
  - rewrite getCorrelationParameterGroup_run. simpl.
    rewrite size_insert, (proj2 (N.leb_gt _ _) Hi).
    rewrite at_index_insert by assumption.
    now rewrite int_of_size_t_small.
Qed.

Lemma set_then_get_group_witness :
  exists this',
    setCorrelationParameterGroup 1 2 (construct 3 3) = (Returns tt, this') /\
    getCorrelationParameterGroup 1 this' = (Returns 2%Z, this').
Proof.
  apply (set_then_get_group (construct 3 3) 1 2);
    [reflexivity | reflexivity | vm_compute; discriminate].
Defined.

(** X2: a [setCorrelationParameterGroup] that throws has thrown
    INDEX_OUT_OF_RANGE because one of its two indices is out of range, and
    has left the object as it was. *)
Theorem setCorrelationParameterGroup_throw_unchanged
    (this this' : FourParameterCorrelationModel)
    (smParamIndex cpGroupIndex : N) (e : Error.t) :
  setCorrelationParameterGroup smParamIndex cpGroupIndex this
  = (Throws e, this') ->
  this' = this /\
  Error.getError e = Error.INDEX_OUT_OF_RANGE /\
  ((size (theGroupMapping this) <= smParamIndex)%N
   \/ (size (theCorrParams this) <= cpGroupIndex)%N).
Proof.
  rewrite setCorrelationParameterGroup_run.
  destruct (_ <=? smParamIndex)%N eqn:Hi.
  - intros [= <- <-]. apply N.leb_le in Hi. auto.
  - destruct (_ <=? cpGroupIndex)%N eqn:Hg; [|discriminate].
    intros [= <- <-]. apply N.leb_le in Hg. auto.
Qed.

Lemma setCorrelationParameterGroup_throw_unchanged_witness :
  snd (setCorrelationParameterGroup 0 7 (construct 2 2)) = construct 2 2.
Proof.
  exact (proj1 (setCorrelationParameterGroup_throw_unchanged
                  (construct 2 2) _ 0 7 _ eq_refl)).
Defined.

(** X3: the checks run in the order of the source.  With a parameter index
    out of range, [setCorrelationParameterGroup] reports the parameter
    index, whatever the group index; with a group index out of range,
    [setCorrelationGroupParameters] reports the index, whatever the values,
    and never BOUNDS.  Both exceptions name the member function called. *)
Theorem first_check_wins (this : FourParameterCorrelationModel)
    (smParamIndex cpGroupIndex : N) (params : Parameters.t) :
  ((size (theGroupMapping this) <= smParamIndex)%N ->
   exists e,
     setCorrelationParameterGroup smParamIndex cpGroupIndex this
     = (Throws e, this) /\
     Error.getError e = Error.INDEX_OUT_OF_RANGE /\
     Error.getMessage e = "Sensor model parameter index is out of range."%string /\
     Error.getFunction e
     = "csm::FourParameterCorrelationModel::setCorrelationParameterGroup"%string) /\
  ((size (theCorrParams this) <= cpGroupIndex)%N ->
   exists e,
     setCorrelationGroupParameters cpGroupIndex params this
     = (Throws e, this) /\
     Error.getError e = Error.INDEX_OUT_OF_RANGE /\
     Error.getMessage e
     = "Correlation parameter group index is out of range."%string /\
     Error.getFunction e
     = "csm::FourParameterCorrelationModel::setCorrelationGroupParameters"%string).
Proof.
  split.
  - intros Hi. eexists. rewrite setCorrelationParameterGroup_run.
    rewrite (proj2 (N.leb_le _ _) Hi). repeat split.
  - intros Hg. eexists. rewrite setCorrelationGroupParameters_run.
    rewrite (proj2 (N.leb_le _ _) Hg). repeat split.
Qed.

Lemma first_check_wins_witness :
  fails_with Error.INDEX_OUT_OF_RANGE
    (setCorrelationParameterGroup 9 9 (construct 2 2)) /\
  fails_with Error.INDEX_OUT_OF_RANGE
    (setCorrelationGroupParameters 9
       (Parameters.make (Num 7) (Num 7) (Num 77) (Num 0)) (construct 2 2)).
Proof.
  destruct (first_check_wins (construct 2 2) 9 9
              (Parameters.make (Num 7) (Num 7) (Num 77) (Num 0)))
    as [H1 H2].
  split.
  - destruct H1 as (e & He & Hk & _); [vm_compute; discriminate|].
    exists e. rewrite He. now split.
  - destruct H2 as (e & He & Hk & _); [vm_compute; discriminate|].
    exists e. rewrite He. now split.
Defined.

(** ** Writes compose: the last write wins, distinct entries commute *)

(** Real values within the bounds are accepted and stored. *)
Lemma setCorrelationGroupParameters_accepts
    (this : FourParameterCorrelationModel) (cpGroupIndex : N)
    (a alpha beta tau : R) :
  (cpGroupIndex < size (theCorrParams this))%N ->
  within_bounds a alpha beta tau ->
  setCorrelationGroupParameters cpGroupIndex
    (Parameters.make (Num a) (Num alpha) (Num beta) (Num tau)) this
  = (Returns tt,
     set_theCorrParams
       (<[N.to_nat cpGroupIndex :=
            Parameters.make (Num a) (Num alpha) (Num beta) (Num tau)]>
          (theCorrParams this)) this).
Proof.
  intros Hg (Ha & Hal & Hb & Ht).
  rewrite setCorrelationGroupParameters_run, (proj2 (N.leb_gt _ _) Hg).
  simpl. settle_decide. reflexivity.
Qed.

(** X4: writing the parameters of a group twice leaves what the second
    write alone would leave; in particular a write repeated with the same
    values changes nothing (idempotence). *)
Theorem setCorrelationGroupParameters_last_write_wins
    (this this1 this2 : FourParameterCorrelationModel) (cpGroupIndex : N)
    (params1 params2 : Parameters.t) :
  setCorrelationGroupParameters cpGroupIndex params1 this
  = (Returns tt, this1) ->
  setCorrelationGroupParameters cpGroupIndex params2 this
  = (Returns tt, this2) ->
  setCorrelationGroupParameters cpGroupIndex params2 this1
  = (Returns tt, this2) /\
  setCorrelationGroupParameters cpGroupIndex params1 this1
  = (Returns tt, this1).
Proof.
  rewrite !setCorrelationGroupParameters_run.
  destruct (_ <=? cpGroupIndex)%N eqn:Hg; [discriminate|].
  intros H1 H2.
  assert (Hs : size (theCorrParams this1) = size (theCorrParams this)).
  { revert H1. repeat (destruct (decide _); [discriminate|]).
    intros [= <-]. simpl. apply size_insert. }
  rewrite Hs, Hg. split.
  - revert H2. repeat (destruct (decide _); [discriminate|]).
    intros [= <-]. f_equal.
    revert H1. repeat (destruct (decide _); [discriminate|]).
    intros [= <-]. unfold set_theCorrParams. simpl.
    now rewrite list_insert_insert_eq.
  - revert H1. repeat (destruct (decide _); [discriminate|]).
    intros [= <-]. f_equal. unfold set_theCorrParams. simpl.
    now rewrite list_insert_insert_eq.
Qed.

(** X5: writes of the parameters of two different groups commute. *)
Theorem setCorrelationGroupParameters_commute
    (this this1 this12 : FourParameterCorrelationModel) (g1 g2 : N)
    (params1 params2 : Parameters.t) :
  g1 <> g2 ->
  setCorrelationGroupParameters g1 params1 this = (Returns tt, this1) ->
  setCorrelationGroupParameters g2 params2 this1 = (Returns tt, this12) ->
  exists this2,
    setCorrelationGroupParameters g2 params2 this = (Returns tt, this2) /\
    setCorrelationGroupParameters g1 params1 this2 = (Returns tt, this12).
Proof.
  intros Hne. rewrite !setCorrelationGroupParameters_run.
  destruct (_ <=? g1)%N eqn:Hg1; [discriminate|].
  repeat (destruct (decide _); [discriminate|]).
  intros [= <-]. simpl. rewrite size_insert.
  destruct (_ <=? g2)%N eqn:Hg2; [discriminate|].
  repeat (destruct (decide _); [discriminate|]).
  intros [= <-]. eexists. split; [reflexivity|].
  rewrite setCorrelationGroupParameters_run. simpl.
  rewrite size_insert, Hg1.
  repeat (destruct (decide _); [contradiction|]).
  f_equal. unfold set_theCorrParams. simpl. f_equal.
  apply list_insert_insert_ne. lia.
Qed.

(** X6: the same for the group assignment: a second assignment of a
    parameter overrides the first, and assignments of two different
    parameters commute. *)
Theorem setCorrelationParameterGroup_compose
    (this this1 this12 : FourParameterCorrelationModel) (i1 i2 g1 g2 : N) :
  setCorrelationParameterGroup i1 g1 this = (Returns tt, this1) ->
  setCorrelationParameterGroup i2 g2 this1 = (Returns tt, this12) ->
  exists this2,
    setCorrelationParameterGroup i2 g2 this = (Returns tt, this2) /\
    (i1 = i2 -> this12 = this2) /\
    (i1 <> i2 ->
     setCorrelationParameterGroup i1 g1 this2 = (Returns tt, this12)).
Proof.
  rewrite !setCorrelationParameterGroup_run.
  destruct (_ <=? i1)%N eqn:Hi1; [discriminate|].
  destruct (_ <=? g1)%N eqn:Hg1; [discriminate|].
  intros [= <-]. simpl. rewrite size_insert.
  destruct (_ <=? i2)%N eqn:Hi2; [discriminate|].
  destruct (_ <=? g2)%N eqn:Hg2; [discriminate|].
  intros [= <-]. eexists. split; [reflexivity|]. split.
  - intros ->. unfold set_theGroupMapping. simpl.
    now rewrite list_insert_insert_eq.
  - intros Hne. rewrite setCorrelationParameterGroup_run. simpl.
    rewrite size_insert, Hi1, Hg1. unfold set_theGroupMapping. simpl.
    do 2 f_equal. apply list_insert_insert_ne. lia.
Qed.

Lemma setCorrelationGroupParameters_last_write_wins_witness :
  let p1 := Parameters.make (Num 0.5) (Num 0.5) (Num 1) (Num 1) in
  let p2 := Parameters.make (Num 1) (Num 0) (Num 0) (Num 2) in
  setCorrelationGroupParameters 0 p2
    (snd (setCorrelationGroupParameters 0 p1 (construct 2 2)))
  = setCorrelationGroupParameters 0 p2 (construct 2 2).
Proof.
  intros p1 p2.
  assert (H1 := setCorrelationGroupParameters_accepts (construct 2 2) 0
                  0.5 0.5 1 1 eq_refl
                  ltac:(unfold within_bounds; lra)).
  assert (H2 := setCorrelationGroupParameters_accepts (construct 2 2) 0
                  1 0 0 2 eq_refl
                  ltac:(unfold within_bounds; lra)).
  fold p1 in H1. fold p2 in H2. rewrite H1, H2. cbn [snd].
  exact (proj1 (setCorrelationGroupParameters_last_write_wins
                  (construct 2 2) _ _ 0 p1 p2 H1 H2)).
Defined.

Lemma setCorrelationGroupParameters_commute_witness :
  let p1 := Parameters.make (Num 0.5) (Num 0.5) (Num 1) (Num 1) in
  let p2 := Parameters.make (Num 1) (Num 0) (Num 0) (Num 2) in
  exists this1 this2 this12,
    setCorrelationGroupParameters 0 p1 (construct 2 2) = (Returns tt, this1) /\
    setCorrelationGroupParameters 1 p2 this1 = (Returns tt, this12) /\
    setCorrelationGroupParameters 1 p2 (construct 2 2) = (Returns tt, this2) /\
    setCorrelationGroupParameters 0 p1 this2 = (Returns tt, this12).
Proof.
  intros p1 p2.
  assert (H1 := setCorrelationGroupParameters_accepts (construct 2 2) 0
                  0.5 0.5 1 1 eq_refl
                  ltac:(unfold within_bounds; lra)).
  fold p1 in H1.
  assert (H2 := setCorrelationGroupParameters_accepts
                  (snd (setCorrelationGroupParameters 0 p1 (construct 2 2))) 1
                  1 0 0 2).
  fold p2 in H2. rewrite H1 in H2. cbn [snd] in H2.
  specialize (H2 eq_refl ltac:(unfold within_bounds; lra)).
  destruct (setCorrelationGroupParameters_commute (construct 2 2) _ _ 0 1
              p1 p2 ltac:(discriminate) H1 H2) as (this2 & H3 & H4).
  eexists _, this2, _. repeat split; eassumption.
Defined.

Lemma setCorrelationParameterGroup_compose_witness :
  exists this2,
    setCorrelationParameterGroup 1 0 (construct 2 2) = (Returns tt, this2) /\
    setCorrelationParameterGroup 0 1 this2
    = setCorrelationParameterGroup 1 0
        (snd (setCorrelationParameterGroup 0 1 (construct 2 2))).
Proof.
  destruct (setCorrelationParameterGroup_compose (construct 2 2) _ _ 0 1 1 0
              eq_refl eq_refl) as (this2 & H2 & _ & H12).
  exists this2. split; [exact H2|]. rewrite H12; [reflexivity | discriminate].
Defined.

(** ** What a write leaves alone *)

Lemma setCorrelationGroupParameters_frame
    (this this' : FourParameterCorrelationModel) (g : N)
    (params : Parameters.t) :
  setCorrelationGroupParameters g params this = (Returns tt, this') ->
  size (theCorrParams this') = size (theCorrParams this) /\
  (forall g', g' <> g ->
     at_index (theCorrParams this') g' = at_index (theCorrParams this) g').
Proof.
  rewrite setCorrelationGroupParameters_run.
  destruct (_ <=? g)%N; [discriminate|].
  repeat (destruct (decide _); [discriminate|]).
  intros [= <-]. simpl. split; [apply size_insert|].
  intros g' Hne. now apply at_index_insert_ne.
Qed.

(** X7: writing the parameters of one group changes neither the coefficient
    nor the parameters read for any other group, and assigning a parameter
    to a group changes no coefficient and no stored parameters at all. *)
Theorem writes_leave_other_groups
    (this this' : FourParameterCorrelationModel) (deltaTime : double) :
  (forall g params g',
     setCorrelationGroupParameters g params this = (Returns tt, this') ->
     g' <> g ->
     getCorrelationCoefficient g' deltaTime this'
     = (fst (getCorrelationCoefficient g' deltaTime this), this') /\
     getCorrelationGroupParameters g' this'
     = (fst (getCorrelationGroupParameters g' this), this')) /\
  (forall i g g',
     setCorrelationParameterGroup i g this = (Returns tt, this') ->
     getCorrelationCoefficient g' deltaTime this'
     = (fst (getCorrelationCoefficient g' deltaTime this), this') /\
     getCorrelationGroupParameters g' this'
     = (fst (getCorrelationGroupParameters g' this), this')).
Proof.
  split.
  - intros g params g' Hset Hne.
    pose proof (setCorrelationGroupParameters_frame
                  this this' g params Hset) as (Hsize & Hother).
    rewrite !getCorrelationCoefficient_run, !getCorrelationGroupParameters_run.
    rewrite Hsize, (Hother g' Hne).
    destruct (_ <=? g')%N; [split; reflexivity|].
    destruct (at_index _ _); split; reflexivity.
  - intros i g g' Hset.
    assert (Hparams : theCorrParams this' = theCorrParams this).
    { revert Hset. rewrite setCorrelationParameterGroup_run.
      destruct (_ <=? i)%N; [discriminate|].
      destruct (_ <=? g)%N; [discriminate|]. now intros [= <-]. }
    rewrite !getCorrelationCoefficient_run, !getCorrelationGroupParameters_run.
    rewrite Hparams.
    destruct (_ <=? g')%N; [split; reflexivity|].
    destruct (at_index _ _); split; reflexivity.
Qed.

Lemma writes_leave_other_groups_witness :
  let p := Parameters.make (Num 0.5) (Num 0.5) (Num 1) (Num 1) in
  getCorrelationCoefficient 1 (Num 3)
    (snd (setCorrelationGroupParameters 0 p (construct 2 2)))
  = (fst (getCorrelationCoefficient 1 (Num 3) (construct 2 2)),
     snd (setCorrelationGroupParameters 0 p (construct 2 2))).
Proof.
  intros p.
  assert (H := setCorrelationGroupParameters_accepts (construct 2 2) 0
                 0.5 0.5 1 1 eq_refl
                 ltac:(unfold within_bounds; lra)).
  fold p in H. rewrite H. cbn [snd].
  match type of H with
  | _ = (_, ?this') =>
      destruct (writes_leave_other_groups (construct 2 2) this' (Num 3))
        as [Hw _]
  end.
  exact (proj1 (Hw 0%N p 1%N H ltac:(discriminate))).
Defined.

(** ** No undefined behaviour, fixed sizes, read-only readers *)

(** X8: no member function indexes a vector out of its bounds: whatever
    the object and the arguments, every call returns or throws. *)
Theorem calls_are_defined (this : FourParameterCorrelationModel)
    (i g : N) (params : Parameters.t) (a alpha beta tau deltaTime : double) :
  defined (getNumSensorModelParameters this) /\
  defined (getNumCorrelationParameterGroups this) /\
  defined (getCorrelationParameterGroup i this) /\
  defined (setCorrelationParameterGroup i g this) /\
  defined (setCorrelationGroupParameters g params this) /\
  defined (setCorrelationGroupParameters_values g a alpha beta tau this) /\
  defined (getCorrelationCoefficient g deltaTime this) /\
  defined (getCorrelationGroupParameters g this).
Proof.
  unfold defined, setCorrelationGroupParameters_values.
  rewrite getCorrelationParameterGroup_run, setCorrelationParameterGroup_run,
    !setCorrelationGroupParameters_run, getCorrelationCoefficient_run,
    getCorrelationGroupParameters_run.
  repeat split; try discriminate.
  - destruct (_ <=? i)%N eqn:Hi; [discriminate|]. apply N.leb_gt in Hi.
    destruct (at_index_lt _ _ Hi) as [x ->]. discriminate.
  - destruct (_ <=? i)%N; [discriminate|]. now destruct (_ <=? g)%N.
  - destruct (_ <=? g)%N; [discriminate|].
    repeat (destruct (decide _); [discriminate|]). discriminate.
  - destruct (_ <=? g)%N; [discriminate|].
    repeat (destruct (decide _); [discriminate|]). discriminate.
  - destruct (_ <=? g)%N eqn:Hg; [discriminate|]. apply N.leb_gt in Hg.
    destruct (at_index_lt _ _ Hg) as [x ->]. discriminate.
  - destruct (_ <=? g)%N eqn:Hg; [discriminate|]. apply N.leb_gt in Hg.
    destruct (at_index_lt _ _ Hg) as [x ->]. discriminate.
Qed.

Lemma after_fixed (c : call) (this : FourParameterCorrelationModel) :
  size (theGroupMapping (after c this)) = size (theGroupMapping this) /\
  size (theCorrParams (after c this)) = size (theCorrParams this) /\
  theFormat (after c this) = theFormat this.
Proof.
  destruct (after_cases c this)
    as [-> | [(i & g & _ & _ & ->) | (g & params & ->)]];
    simpl; rewrite ?size_insert; auto.
Qed.

(** X9: the two counts and the format string are fixed at construction:
    after any sequence of calls on a constructed object, whether they
    return or throw, both counts are still [numSMParams] and the format is
    still "Four-parameter model (A, alpha, beta, tau)". *)
Theorem counts_and_format_are_fixed
    (numSMParams numCPGroups : N) (calls : list call) :
  let this := after_all calls (construct numSMParams numCPGroups) in
  getNumSensorModelParameters this = (Returns numSMParams, this) /\
  getNumCorrelationParameterGroups this = (Returns numSMParams, this) /\
  theFormat this = "Four-parameter model (A, alpha, beta, tau)"%string.
Proof.
  intros this.
  assert (H : forall calls this0,
    size (theGroupMapping (after_all calls this0))
    = size (theGroupMapping this0) /\
    size (theCorrParams (after_all calls this0)) = size (theCorrParams this0) /\
    theFormat (after_all calls this0) = theFormat this0).
  { clear. induction calls as [|c calls IH]; intros this0; [auto|].
    simpl. destruct (IH (after c this0)) as (-> & -> & ->).
    apply after_fixed. }
  destruct (H calls (construct numSMParams numCPGroups)) as (Hm & Hp & Hf).
  fold this in Hm, Hp, Hf. unfold_method.
  rewrite Hm, Hp, Hf. simpl. rewrite !size_replicate. auto.
Qed.

(** X10: the five [const] member functions leave the object as it is,
    whether they return or throw. *)
Theorem readers_change_nothing (this : FourParameterCorrelationModel)
    (i g : N) (deltaTime : double) :
  snd (getNumSensorModelParameters this) = this /\
  snd (getNumCorrelationParameterGroups this) = this /\
  snd (getCorrelationParameterGroup i this) = this /\
  snd (getCorrelationCoefficient g deltaTime this) = this /\
  snd (getCorrelationGroupParameters g this) = this.
Proof.
  rewrite getCorrelationParameterGroup_run, getCorrelationCoefficient_run,
    getCorrelationGroupParameters_run.
  repeat split.
  - now destruct (_ <=? i)%N.
  - destruct (_ <=? g)%N; [reflexivity|]. now destruct (at_index _ _).
  - now destruct (_ <=? g)%N.
Qed.

(** ** The curve on accepted parameters *)

Lemma at_index_Returns_lt {A : Type} (v : list A) (i : N) (x : A) :
  at_index v i = Returns x -> (i < size v)%N.
Proof.
  unfold at_index, size. destruct (v !! N.to_nat i) eqn:Hl; [|discriminate].
  intros _. apply lookup_lt_Some in Hl. lia.
Qed.

Lemma exp_ratio_ge_1 (t tau : R) : 0 < tau -> 1 <= exp (Rabs t / tau).
Proof.
  intros Htau.
  assert (0 <= Rabs t / tau).
  { apply Rmult_le_pos; [apply Rabs_pos|].
    left. now apply Rinv_0_lt_compat. }
  pose proof (exp_ineq1_le (Rabs t / tau)). lra.
Qed.

Lemma rho_within (a alpha beta tau t : R) :
  within_bounds a alpha beta tau ->
  a * alpha <= rho a alpha beta tau t <= a.
Proof.
  intros (Ha & Hal & Hb & Ht). unfold rho.
  pose proof (exp_ratio_ge_1 t tau Ht) as HE.
  set (E := exp (Rabs t / tau)) in *.
  assert (Hq : (1 + beta) / (beta + E) * (beta + E) = 1 + beta)
    by (field; lra).
  replace ((1 - alpha) * (1 + beta) / (beta + E))
    with ((1 - alpha) * ((1 + beta) / (beta + E))) by (field; lra).
  set (q := (1 + beta) / (beta + E)) in *.
  assert (0 <= q <= 1) by (split; nra).
  assert (0 <= (1 - alpha) * q <= 1 - alpha) by (split; nra).
  set (p := (1 - alpha) * q) in *. split; nra.
Qed.

Lemma rho_decreasing (a alpha beta tau t1 t2 : R) :
  within_bounds a alpha beta tau ->
  Rabs t1 <= Rabs t2 ->
  rho a alpha beta tau t2 <= rho a alpha beta tau t1.
Proof.
  intros (Ha & Hal & Hb & Ht) Hle. unfold rho.
  pose proof (exp_ratio_ge_1 t1 tau Ht) as HE1.
  assert (HE : exp (Rabs t1 / tau) <= exp (Rabs t2 / tau)).
  { destruct Hle as [Hlt|Heq]; [|rewrite Heq; lra].
    left. apply exp_increasing. apply Rmult_lt_compat_r; [|exact Hlt].
    now apply Rinv_0_lt_compat. }
  set (E1 := exp (Rabs t1 / tau)) in *. set (E2 := exp (Rabs t2 / tau)) in *.
  assert (Hq1 : (1 + beta) / (beta + E1) * (beta + E1) = 1 + beta)
    by (field; lra).
  assert (Hq2 : (1 + beta) / (beta + E2) * (beta + E2) = 1 + beta)
    by (field; lra).
  replace ((1 - alpha) * (1 + beta) / (beta + E1))
    with ((1 - alpha) * ((1 + beta) / (beta + E1))) by (field; lra).
  replace ((1 - alpha) * (1 + beta) / (beta + E2))
    with ((1 - alpha) * ((1 + beta) / (beta + E2))) by (field; lra).
  set (q1 := (1 + beta) / (beta + E1)) in *.
  set (q2 := (1 + beta) / (beta + E2)) in *.
  assert (0 <= q2) by nra.
  assert (q2 <= q1) by nra.
  assert ((1 - alpha) * q2 <= (1 - alpha) * q1) by nra.
  set (p1 := (1 - alpha) * q1) in *. set (p2 := (1 - alpha) * q2) in *. nra.
Qed.

(** On stored real parameters within the bounds the clamp is not engaged. *)
Lemma getCorrelationCoefficient_within
    (this : FourParameterCorrelationModel) (g : N) (a alpha beta tau t : R) :
  at_index (theCorrParams this) g
  = Returns (Parameters.make (Num a) (Num alpha) (Num beta) (Num tau)) ->
  within_bounds a alpha beta tau ->
  getCorrelationCoefficient g (Num t) this
  = (Returns (Num (rho a alpha beta tau t)), this).
Proof.
  intros Hcp Hb. pose proof (at_index_Returns_lt _ _ _ Hcp) as Hg.
  rewrite getCorrelationCoefficient_run, (proj2 (N.leb_gt _ _) Hg), Hcp.
  pose proof (rho_within a alpha beta tau t Hb) as Hr.
  destruct Hb as (Ha & Hal & Hbe & Ht).
  pose proof (exp_ratio_ge_1 t tau Ht).
  rewrite corrCoeff_of_Num, clamped_Num by lra.
  rewrite clamp_id; [reflexivity|]. nra.
Qed.

(** *** Under any rounding that keeps the order *)

Lemma faithful_exact : faithful (fun x => x) dexp.
Proof.
  split.
  - auto.
  - reflexivity.
  - simpl. now rewrite exp_0.
  - intros [r| | |]; simpl; try tauto.
    intros Hr. pose proof (exp_ineq1_le r). lra.
Qed.

Lemma number_in_Num (lo hi : R) (x : double) :
  number_in lo hi x -> exists r, x = Num r /\ lo <= r <= hi.
Proof.
  unfold number_in. destruct x as [r| | |]; simpl; try tauto.
  intros [Hlo Hhi]. exists r. now split.
Qed.

Lemma Num_number_in (lo hi r : R) : lo <= r <= hi -> number_in lo hi (Num r).
Proof. intros [Hlo Hhi]. split; assumption. Qed.

Section Rounding.

Variables round ex : double -> double.
Hypothesis Hfaithful : faithful round ex.

Lemma round_at_least (z : Z) (x : double) :
  (Z.abs z <= 2 ^ 53)%Z ->
  (Num (IZR z) <= x)%D -> (Num (IZR z) <= round x)%D.
Proof.
  intros Hz Hx. rewrite <- (round_integer _ _ Hfaithful z Hz).
  now apply (round_monotone _ _ Hfaithful).
Qed.

Lemma round_number_in (zlo zhi : Z) (x : double) :
  (Z.abs zlo <= 2 ^ 53)%Z -> (Z.abs zhi <= 2 ^ 53)%Z ->
  number_in (IZR zlo) (IZR zhi) x ->
  number_in (IZR zlo) (IZR zhi) (round x).
Proof.
  intros Hlo Hhi [Hx1 Hx2]. split.
  - now apply round_at_least.
  - rewrite <- (round_integer _ _ Hfaithful zhi Hhi).
    now apply (round_monotone _ _ Hfaithful).
Qed.

(** The rounded expression on real parameters within the bounds is a
    number between 0 and 12. *)
Lemma corrCoeff_in_rounded_within (a alpha beta tau t : R) :
  within_bounds a alpha beta tau ->
  number_in 0 12
    (corrCoeff_in (rounded round ex)
       (Parameters.make (Num a) (Num alpha) (Num beta) (Num tau)) (Num t)).
Proof.
  intros (Ha & Hal & Hb & Ht).
  unfold corrCoeff_in, rounded.
  cbn [fadd fsub fmul fdiv fexp ffabs Parameters.a Parameters.alpha
       Parameters.beta Parameters.tau dfabs].
  (* the exponent and the exponential *)
  rewrite (ddiv_Num (Rabs t) tau) by lra.
  assert (Hx : (Num 0 <= round (Num (Rabs t / tau)))%D).
  { apply (round_at_least 0); [vm_compute; discriminate|]. simpl.
    apply Rmult_le_pos; [apply Rabs_pos|].
    left. apply Rinv_0_lt_compat. lra. }
  apply (exp_nonneg _ _ Hfaithful) in Hx.
  set (E := ex (round (Num (Rabs t / tau)))) in *.
  (* the divisor *)
  assert (Hd : (Num 1 <= round (Num beta + E))%D).
  { apply (round_at_least 1); [vm_compute; discriminate|].
    destruct E as [e| | |]; simpl in *; try tauto. lra. }
  set (d := round (Num beta + E)%D) in *.
  (* the dividend *)
  assert (Hs1 : number_in 0 1 (round (Num 1 - Num alpha)%D)).
  { apply (round_number_in 0 1); try (vm_compute; discriminate).
    apply Num_number_in. lra. }
  assert (Hs2 : number_in 1 11 (round (Num 1 + Num beta)%D)).
  { apply (round_number_in 1 11); try (vm_compute; discriminate).
    apply Num_number_in. lra. }
  destruct (number_in_Num _ _ _ Hs1) as (u & -> & Hu).
  destruct (number_in_Num _ _ _ Hs2) as (w & -> & Hw).
  assert (Hm : number_in 0 11 (round (Num u * Num w)%D)).
  { apply (round_number_in 0 11); try (vm_compute; discriminate).
    apply Num_number_in. simpl. split; nra. }
  destruct (number_in_Num _ _ _ Hm) as (m & -> & Hmm).
  (* the quotient *)
  assert (Hq : number_in 0 11 (round (Num m / d)%D)).
  { apply (round_number_in 0 11); try (vm_compute; discriminate).
    destruct d as [dd| | |]; simpl in Hd; try tauto.
    - rewrite ddiv_Num by lra. apply Num_number_in.
      assert (Hdd : m / dd * dd = m) by (field; lra).
      set (q := m / dd) in *. split; nra.
    - simpl. apply Num_number_in. lra. }
  destruct (number_in_Num _ _ _ Hq) as (q & -> & Hqq).
  (* the sum and the product *)
  assert (Hs : number_in 0 12 (round (Num alpha + Num q)%D)).
  { apply (round_number_in 0 12); try (vm_compute; discriminate).
    apply Num_number_in. simpl. lra. }
  destruct (number_in_Num _ _ _ Hs) as (s & -> & Hss).
  apply (round_number_in 0 12); try (vm_compute; discriminate).
  apply Num_number_in. simpl. split; nra.
Qed.

(** At [deltaTime = 0] the exponential is [exp(0) = 1], whatever the
    stored [tau <> 0]. *)
Lemma corrCoeff_in_rounded_at_zero (a alpha beta : double) (tau : R) :
  tau <> 0 ->
  corrCoeff_in (rounded round ex)
    (Parameters.make a alpha beta (Num tau)) (Num 0)
  = at_zero_in (rounded round ex) a alpha beta.
Proof.
  intros Htau. unfold corrCoeff_in, at_zero_in, rounded.
  cbn [fadd fsub fmul fdiv fexp ffabs Parameters.a Parameters.alpha
       Parameters.beta Parameters.tau dfabs].
  rewrite (ddiv_Num (Rabs 0) tau Htau).
  replace (Rabs 0 / tau) with (IZR 0)
    by (rewrite Rabs_R0; unfold Rdiv; now rewrite Rmult_0_l).
  rewrite (round_integer _ _ Hfaithful 0) by (vm_compute; discriminate).
  now rewrite (exp_zero _ _ Hfaithful).
Qed.

End Rounding.

(** X11: at [deltaTime = 0] the stored [tau] plays no part: for a stored real
    [tau <> 0] the coefficient is
    a * (alpha + (1 - alpha) * (1 + beta) / (beta + 1)), evaluated in the
    arithmetic of the platform and clamped, under every rounding that keeps
    0 and has [exp(0) = 1]; two groups that differ in [tau] only have the
    same coefficient at 0. *)
Theorem coefficient_at_zero (round ex : double -> double)
    (this : FourParameterCorrelationModel) (g g' : N)
    (a alpha beta : double) (tau tau' : R) :
  faithful round ex ->
  at_index (theCorrParams this) g
  = Returns (Parameters.make a alpha beta (Num tau)) ->
  at_index (theCorrParams this) g'
  = Returns (Parameters.make a alpha beta (Num tau')) ->
  tau <> 0 -> tau' <> 0 ->
  getCorrelationCoefficient_in (rounded round ex) g (Num 0) this
  = (Returns (clamped (at_zero_in (rounded round ex) a alpha beta)), this) /\
  getCorrelationCoefficient_in (rounded round ex) g' (Num 0) this
  = getCorrelationCoefficient_in (rounded round ex) g (Num 0) this.
Proof.
  intros Hf Hcp Hcp' Htau Htau'.
  pose proof (at_index_Returns_lt _ _ _ Hcp) as Hg.
  pose proof (at_index_Returns_lt _ _ _ Hcp') as Hg'.
  rewrite !getCorrelationCoefficient_in_run.
  rewrite (proj2 (N.leb_gt _ _) Hg), (proj2 (N.leb_gt _ _) Hg'), Hcp, Hcp'.
  now rewrite !(corrCoeff_in_rounded_at_zero round ex Hf).
Qed.

Lemma coefficient_at_zero_witness :
  let this :=
    Build_Model []
      [Parameters.make (Num 0.8) (Num 0.3) (Num 1) (Num 5);
       Parameters.make (Num 0.8) (Num 0.3) (Num 1) (Num 7)]
      "Four-parameter model (A, alpha, beta, tau)" in
  getCorrelationCoefficient 1 (Num 0) this
  = getCorrelationCoefficient 0 (Num 0) this.
Proof.
  intros this.
  exact (proj2 (coefficient_at_zero (fun x => x) dexp this 0 1
                  (Num 0.8) (Num 0.3) (Num 1) 5 7 faithful_exact
                  eq_refl eq_refl ltac:(lra) ltac:(lra))).
Defined.

(** X12: values within the bounds give a number in [0, 1]: after a
    [setCorrelationGroupParameters] with real values within the bounds, the
    coefficient of that group at a real [deltaTime] is a number between 0
    and 1, never NaN and never negative, under every rounding that keeps
    the order (overflow and underflow included), the exact arithmetic
    among them. *)
Theorem set_then_evaluate (round ex : double -> double)
    (this : FourParameterCorrelationModel) (g : N) (a alpha beta tau t : R) :
  faithful round ex ->
  (g < size (theCorrParams this))%N ->
  within_bounds a alpha beta tau ->
  exists this' v v',
    setCorrelationGroupParameters_values g
      (Num a) (Num alpha) (Num beta) (Num tau) this
    = (Returns tt, this') /\
    getCorrelationCoefficient_in (rounded round ex) g (Num t) this'
    = (Returns v, this') /\
    number_in 0 1 v /\
    getCorrelationCoefficient g (Num t) this' = (Returns v', this') /\
    number_in 0 1 v'.
Proof.
  intros Hf Hg Hb.
  assert (Hin : forall round0 ex0, faithful round0 ex0 ->
    number_in 0 1
      (clamped
         (corrCoeff_in (rounded round0 ex0)
            (Parameters.make (Num a) (Num alpha) (Num beta) (Num tau))
            (Num t)))).
  { intros round0 ex0 Hf0.
    destruct (number_in_Num _ _ _
                (corrCoeff_in_rounded_within round0 ex0 Hf0
                   a alpha beta tau t Hb)) as (r & -> & Hr).
    rewrite clamped_Num. apply Num_number_in.
    unfold clamp. destruct (Rlt_dec r (-1)), (Rlt_dec 1 r); lra. }
  assert (Hget : forall ar,
    getCorrelationCoefficient_in ar g (Num t)
      (set_theCorrParams
         (<[N.to_nat g :=
              Parameters.make (Num a) (Num alpha) (Num beta) (Num tau)]>
            (theCorrParams this)) this)
    = (Returns
         (clamped
            (corrCoeff_in ar
               (Parameters.make (Num a) (Num alpha) (Num beta) (Num tau))
               (Num t))),
       set_theCorrParams
         (<[N.to_nat g :=
              Parameters.make (Num a) (Num alpha) (Num beta) (Num tau)]>
            (theCorrParams this)) this)).
  { intros ar. rewrite getCorrelationCoefficient_in_run. simpl.
    rewrite size_insert, (proj2 (N.leb_gt _ _) Hg).
    now rewrite at_index_insert. }
  eexists _, _, _. split; [|split; [|split; [|split]]].
  - unfold setCorrelationGroupParameters_values.
    now apply setCorrelationGroupParameters_accepts.
  - apply Hget.
  - now apply Hin.
  - apply (Hget (rounded (fun x => x) dexp)).
  - apply Hin, faithful_exact.
Qed.

Lemma set_then_evaluate_witness :
  exists this' v,
    setCorrelationGroupParameters_values 1
      (Num 0.8) (Num 0.3) (Num 1) (Num 5) (construct 2 2)
    = (Returns tt, this') /\
    getCorrelationCoefficient 1 (Num (-7)) this' = (Returns v, this') /\
    number_in 0 1 v.
Proof.
  destruct (set_then_evaluate (fun x => x) dexp (construct 2 2) 1
              0.8 0.3 1 5 (-7) faithful_exact)
    as (this' & _ & v' & Hset & _ & _ & Hget & Hin);
    [reflexivity | unfold within_bounds; lra |].
  exists this', v'. repeat split; assumption || apply Hin.
Defined.

(** X13: on stored real parameters within the bounds the coefficient does
    not grow with the time separation: if [|t1| <= |t2|], the coefficient
    at [t2] is at most the coefficient at [t1]. *)
Theorem coefficient_decreases (this : FourParameterCorrelationModel) (g : N)
    (a alpha beta tau t1 t2 : R) :
  at_index (theCorrParams this) g
  = Returns (Parameters.make (Num a) (Num alpha) (Num beta) (Num tau)) ->
  within_bounds a alpha beta tau ->
  Rabs t1 <= Rabs t2 ->
  exists r1 r2 : R,
    getCorrelationCoefficient g (Num t1) this = (Returns (Num r1), this) /\
    getCorrelationCoefficient g (Num t2) this = (Returns (Num r2), this) /\
    r2 <= r1.
Proof.
  intros Hcp Hb Hle.
  exists (rho a alpha beta tau t1), (rho a alpha beta tau t2).
  split; [now apply getCorrelationCoefficient_within|].
  split; [now apply getCorrelationCoefficient_within|].
  now apply rho_decreasing.
Qed.

Lemma coefficient_decreases_witness :
  let this :=
    Build_Model [] [Parameters.make (Num 0.8) (Num 0.3) (Num 1) (Num 5)]
      "Four-parameter model (A, alpha, beta, tau)" in
  exists r1 r2 : R,
    getCorrelationCoefficient 0 (Num 2) this = (Returns (Num r1), this) /\
    getCorrelationCoefficient 0 (Num (-3)) this = (Returns (Num r2), this) /\
    r2 <= r1.
Proof.
  intros this.
  apply (coefficient_decreases this 0 0.8 0.3 1 5 2 (-3) eq_refl).
  - unfold within_bounds; lra.
  - rewrite Rabs_pos_eq, Rabs_left; lra.
Defined.

(** ** NaN and never-set groups *)

Lemma dadd_NaN_r (x : double) : (x + NaN)%D = NaN.
Proof. now destruct x. Qed.

Lemma dmul_NaN_r (x : double) : (x * NaN)%D = NaN.
Proof. now destruct x. Qed.

Lemma ddiv_NaN_r (x : double) : (x / NaN)%D = NaN.
Proof. now destruct x. Qed.

Lemma clamped_NaN : clamped NaN = NaN.
Proof.
  unfold clamped. rewrite !decide_False; [reflexivity | exact (fun f => f) ..].
Qed.

Lemma corrCoeff_of_NaN (cp : Parameters.t) (deltaTime : double) :
  has_NaN cp -> corrCoeff_of cp deltaTime = NaN.
Proof.
  unfold has_NaN, corrCoeff_of.
  destruct cp as [a alpha beta tau]. simpl.
  intros [-> | [-> | [-> | ->]]];
    do 5 (simpl; rewrite ?dadd_NaN_r, ?dmul_NaN_r, ?ddiv_NaN_r);
    reflexivity.
Qed.

(** X14: the bounds checks let NaN through, and NaN stays: for a valid
    group, [setCorrelationGroupParameters(g, NaN, NaN, NaN, NaN)] returns,
    and as long as one stored field of a group is NaN its coefficient is
    NaN at every [deltaTime]. *)
Theorem NaN_is_accepted_and_kept (this : FourParameterCorrelationModel)
    (g : N) :
  (g < size (theCorrParams this))%N ->
  (exists this',
     setCorrelationGroupParameters_values g NaN NaN NaN NaN this
     = (Returns tt, this') /\
     forall deltaTime,
       getCorrelationCoefficient g deltaTime this' = (Returns NaN, this')) /\
  (forall cp deltaTime,
     at_index (theCorrParams this) g = Returns cp -> has_NaN cp ->
     getCorrelationCoefficient g deltaTime this = (Returns NaN, this)).
Proof.
  intros Hg.
  assert (Hkept : forall this0 cp deltaTime,
    at_index (theCorrParams this0) g = Returns cp -> has_NaN cp ->
    getCorrelationCoefficient g deltaTime this0 = (Returns NaN, this0)).
  { intros this0 cp deltaTime Hcp Hnan.
    pose proof (at_index_Returns_lt _ _ _ Hcp) as Hg0.
    rewrite getCorrelationCoefficient_run, (proj2 (N.leb_gt _ _) Hg0), Hcp.
    now rewrite corrCoeff_of_NaN, clamped_NaN. }
  split; [|apply Hkept].
  eexists. split.
  - unfold setCorrelationGroupParameters_values.
    rewrite setCorrelationGroupParameters_run, (proj2 (N.leb_gt _ _) Hg).
    reflexivity.
  - intros deltaTime. eapply Hkept.
    + simpl. now apply at_index_insert.
    + now left.
Qed.

Lemma NaN_is_accepted_and_kept_witness :
  exists this',
    setCorrelationGroupParameters_values 0 NaN NaN NaN NaN (construct 1 1)
    = (Returns tt, this') /\
    getCorrelationCoefficient 0 (Num 3) this' = (Returns NaN, this').
Proof.
  destruct (NaN_is_accepted_and_kept (construct 1 1) 0 eq_refl)
    as [(this' & Hset & Hget) _].
  exists this'. split; [exact Hset | apply Hget].
Defined.

(** X15: on a freshly constructed object every group index below
    [numSMParams] is valid, whatever [numCPGroups] was: its parameters read
    as all zeros and its coefficient at a real [deltaTime <> 0] is 0
    (the exponent is [|deltaTime| / 0 = +inf]); every group index from
    [numSMParams] on is rejected. *)
Theorem fresh_object_groups (numSMParams numCPGroups g : N) :
  let this := construct numSMParams numCPGroups in
  ((g < numSMParams)%N ->
   getCorrelationGroupParameters g this = (Returns Parameters.default, this) /\
   forall t : R, t <> 0 ->
     getCorrelationCoefficient g (Num t) this = (Returns (Num 0), this)) /\
  ((numSMParams <= g)%N ->
   fails_with Error.INDEX_OUT_OF_RANGE
     (getCorrelationGroupParameters g this)).
Proof.
  intros this. split.
  - intros Hg.
    assert (Hcp : at_index (theCorrParams this) g = Returns Parameters.default)
      by now apply at_index_replicate.
    assert (Hsize : (size (theCorrParams this) <=? g)%N = false).
    { subst this. simpl. rewrite size_replicate. now apply N.leb_gt. }
    split.
    + now rewrite getCorrelationGroupParameters_run, Hsize, Hcp.
    + intros t Ht.
      rewrite getCorrelationCoefficient_run, Hsize, Hcp.
      unfold corrCoeff_of, Parameters.default.
      cbn [Parameters.a Parameters.alpha Parameters.beta Parameters.tau dfabs].
      assert (Hdiv : (Num (Rabs t) / Num 0)%D = PosInf).
      { simpl. destruct (Req_dec_T 0 0) as [_|Hne]; [|now destruct Hne].
        unfold sign_of. pose proof (Rabs_pos_lt t Ht).
        destruct (Req_dec_T (Rabs t) 0); [lra|].
        destruct (Rlt_dec 0 (Rabs t)); [reflexivity | lra]. }
      rewrite Hdiv. cbn [dexp dadd dsub dneg dmul ddiv].
      rewrite clamped_Num. do 3 f_equal.
      rewrite clamp_id; lra.
  - intros Hg. rewrite getCorrelationGroupParameters_run.
    subst this. simpl. rewrite size_replicate, (proj2 (N.leb_le _ _) Hg).
    apply (fails_with_Throws (group_index_error _)).
Qed.

Lemma fresh_object_groups_witness :
  getCorrelationGroupParameters 2 (construct 3 1)
  = (Returns Parameters.default, construct 3 1) /\
  getCorrelationCoefficient 2 (Num 4) (construct 3 1)
  = (Returns (Num 0), construct 3 1) /\
  fails_with Error.INDEX_OUT_OF_RANGE
    (getCorrelationGroupParameters 3 (construct 3 5)).
Proof.
  destruct (fresh_object_groups 3 1 2) as [[Hp Hc] _]; [reflexivity|].
  destruct (fresh_object_groups 3 5 3) as [_ Hf].
  split; [exact Hp|]. split; [apply Hc; lra|].
  apply Hf. vm_compute. discriminate.
Defined.


